(** * The google_project resource: create, read, update, delete

    A shallow embedding of [google/resource_google_project.go].  The
    resource functions talk to three remote services through a [Config]
    and read and write one [ResourceData] record.  Here the record is a
    value threaded through a small state-and-error monad, the remote
    services are handler functions over an abstract world [W], and every
    remote call (and every write of the record's identifier) is appended
    to a log so that the order of the effects can be stated. *)

From Stdlib Require Import ZArith String List.
From stdpp Require Import base decidable option list gmap strings pretty.

(** ** Go strings *)

Module Strings.

(** [strings.HasPrefix(s, prefix)]. *)
Fixpoint HasPrefix (s prefix : string) {struct prefix} : bool :=
  match prefix with
  | EmptyString => true
  | String c prefix' =>
      match s with
      | EmptyString => false
      | String c' s' => if Ascii.eqb c' c then HasPrefix s' prefix' else false
      end
  end.

(** The slice expression [s[n:]] for [n <= len(s)]. *)
Fixpoint sliceFrom (n : nat) (s : string) : string :=
  match n with
  | O => s
  | S n' => match s with
            | EmptyString => EmptyString
            | String _ s' => sliceFrom n' s'
            end
  end.

(** [strings.TrimPrefix(s, prefix)]. *)
Definition TrimPrefix (s prefix : string) : string :=
  if HasPrefix s prefix then sliceFrom (String.length prefix) s else s.

(** [a != b] on strings. *)
Definition neqb (a b : string) : bool := negb (String.eqb a b).

End Strings.

(** ** Errors

    [fmt.Errorf] keeps its format string and its arguments as they are
    passed; the text is not rendered. *)

Inductive error : Type :=
| GoogleApiError (Code : Z) (Message : string)   (* *googleapi.Error *)
| OtherError (Message : string)                  (* any other error value *)
| Errorf (format : string) (args : list fmtarg)  (* fmt.Errorf(format, args...) *)
with fmtarg : Type :=
| ArgString (s : string)
| ArgError (e : error).

Definition StatusNotFound : Z := 404.

(** ** Values of the schema *)

Inductive ValueType := TypeString | TypeBool | TypeMap.

Inductive value :=
| VNil
| VString (s : string)
| VBool (b : bool)
| VMap (m : gmap string string).

#[global] Instance ValueType_eq_dec : EqDecision ValueType.
Proof. solve_decision. Defined.

#[global] Instance value_eq_dec : EqDecision value.
Proof. solve_decision. Defined.

Definition zeroValue (t : ValueType) : value :=
  match t with
  | TypeString => VString ""
  | TypeBool => VBool false
  | TypeMap => VMap ∅
  end.

Definition hasType (t : ValueType) (v : value) : bool :=
  match t, v with
  | TypeString, VString _ => true
  | TypeBool, VBool _ => true
  | TypeMap, VMap _ => true
  | _, _ => false
  end.

(** The [Schema] map of [resourceGoogleProject], keys and types. *)
Definition Schema : list (string * ValueType) :=
  [ ("project_id", TypeString);
    ("skip_delete", TypeBool);
    ("auto_create_network", TypeBool);
    ("name", TypeString);
    ("org_id", TypeString);
    ("folder_id", TypeString);
    ("policy_data", TypeString);
    ("policy_etag", TypeString);
    ("number", TypeString);
    ("billing_account", TypeString);
    ("labels", TypeMap) ].

Fixpoint schemaType (sch : list (string * ValueType)) (key : string)
  : option ValueType :=
  match sch with
  | [] => None
  | (k, t) :: sch' => if String.eqb k key then Some t else schemaType sch' key
  end.

(** ** schema.ResourceData

    Three levels of values, read merged from the top: what the resource
    functions wrote with [Set], the planned values (configuration and
    diff), and the prior state.  [HasChange] compares the prior state with
    the planned values and does not see the [Set] level. *)

Record ResourceData := mkResourceData {
  rd_id : string;
  rd_state : gmap string value;
  rd_diff : gmap string value;
  rd_set : gmap string value;
  rd_partial : bool;
  rd_partialMap : gset string
}.

Module RD.

Definition typed (key : string) (o : option value) : value :=
  match schemaType Schema key with
  | None => VNil
  | Some t =>
      match o with
      | Some v => if hasType t v then v else zeroValue t
      | None => zeroValue t
      end
  end.

Definition readState (d : ResourceData) (key : string) : option value :=
  rd_state d !! key.

Definition readDiff (d : ResourceData) (key : string) : option value :=
  match rd_diff d !! key with
  | Some v => Some v
  | None => readState d key
  end.

Definition readSet (d : ResourceData) (key : string) : option value :=
  match rd_set d !! key with
  | Some v => Some v
  | None => readDiff d key
  end.

(** [d.Id()] *)
Definition Id (d : ResourceData) : string := rd_id d.

(** [d.SetId(v)] *)
Definition SetId (v : string) (d : ResourceData) : ResourceData :=
  mkResourceData v (rd_state d) (rd_diff d) (rd_set d)
                 (rd_partial d) (rd_partialMap d).

(** [d.Get(key)]: the zero value of the key's type when nothing is
    stored, and nil for a key that the schema does not have. *)
Definition Get (d : ResourceData) (key : string) : value :=
  typed key (readSet d key).

(** [d.GetOk(key)]: the value, and whether it differs from the zero
    value. *)
Definition GetOk (d : ResourceData) (key : string) : value * bool :=
  let v := Get d key in
  (v, match schemaType Schema key with
      | None => false
      | Some t => negb (bool_decide (v = zeroValue t))
      end).

(** [d.Set(key, v)]; the error it returns for an unknown key or a value
    of the wrong type is dropped by every caller. *)
Definition Set_ (key : string) (v : value) (d : ResourceData) : ResourceData :=
  match schemaType Schema key with
  | None => d
  | Some t =>
      if hasType t v
      then mkResourceData (rd_id d) (rd_state d) (rd_diff d)
                          (<[key := v]> (rd_set d))
                          (rd_partial d) (rd_partialMap d)
      else d
  end.

(** [d.HasChange(key)] *)
Definition HasChange (d : ResourceData) (key : string) : bool :=
  negb (bool_decide (typed key (readState d key) = typed key (readDiff d key))).

(** [d.Partial(on)] *)
Definition Partial (on : bool) (d : ResourceData) : ResourceData :=
  mkResourceData (rd_id d) (rd_state d) (rd_diff d) (rd_set d)
                 on (if on then rd_partialMap d else ∅).

(** [d.SetPartial(key)] *)
Definition SetPartial (key : string) (d : ResourceData) : ResourceData :=
  mkResourceData (rd_id d) (rd_state d) (rd_diff d) (rd_set d)
                 (rd_partial d)
                 (if rd_partial d then {[ key ]} ∪ rd_partialMap d
                  else rd_partialMap d).

(** The string and the flag that [Get] yields for a key. *)
Definition GetString (d : ResourceData) (key : string) : string :=
  match Get d key with VString s => s | _ => "" end.


End RD.

(** ** Remote objects *)

(** [cloudresourcemanager.ResourceId] *)
Record ResourceId := mkResourceId {
  ri_Id : string;
  ri_Type : string
}.

(** [cloudresourcemanager.Project] *)
Record Project := mkProject {
  p_CreateTime : string;
  p_Labels : gmap string string;
  p_LifecycleState : string;
  p_Name : string;
  p_Parent : option ResourceId;
  p_ProjectId : string;
  p_ProjectNumber : Z
}.

Definition set_Name (n : string) (p : Project) : Project :=
  mkProject (p_CreateTime p) (p_Labels p) (p_LifecycleState p) n
            (p_Parent p) (p_ProjectId p) (p_ProjectNumber p).

Definition set_Parent (r : ResourceId) (p : Project) : Project :=
  mkProject (p_CreateTime p) (p_Labels p) (p_LifecycleState p) (p_Name p)
            (Some r) (p_ProjectId p) (p_ProjectNumber p).

Definition set_Labels (l : gmap string string) (p : Project) : Project :=
  mkProject (p_CreateTime p) l (p_LifecycleState p) (p_Name p)
            (p_Parent p) (p_ProjectId p) (p_ProjectNumber p).

(** [cloudbilling.ProjectBillingInfo].  A field is put on the wire when it
    is non-empty or listed in [ForceSendFields]; the zero struct sends no
    field at all. *)
Record ProjectBillingInfo := mkProjectBillingInfo {
  ba_BillingAccountName : string;
  ba_BillingEnabled : bool;
  ba_Name : string;
  ba_ProjectId : string;
  ba_ForceSendFields : list string
}.

(** [cloudbilling.ProjectBillingInfo{}] *)
Definition emptyProjectBillingInfo : ProjectBillingInfo :=
  mkProjectBillingInfo "" false "" "" [].

Definition set_BillingAccountName (n : string) (ba : ProjectBillingInfo)
  : ProjectBillingInfo :=
  mkProjectBillingInfo n (ba_BillingEnabled ba) (ba_Name ba) (ba_ProjectId ba)
                       (ba_ForceSendFields ba).

(** Whether a payload carries a billing-account-name field. *)
Definition sendsBillingAccountName (ba : ProjectBillingInfo) : bool :=
  Strings.neqb (ba_BillingAccountName ba) ""
  || bool_decide ("BillingAccountName" ∈ ba_ForceSendFields ba).

(** Long-running operation handles of the two services. *)
Record Operation := mkOperation { op_Name : string }.

(** [compute.Firewall] and [compute.FirewallList] *)
Record Firewall := mkFirewall {
  fw_Name : string;
  fw_Network : string
}.

Record FirewallList := mkFirewallList {
  fl_Items : list Firewall;
  fl_NextPageToken : string
}.

(** A [FirewallsListCall] as it stands when [Do] is called: the project
    and the query parameters set on the builder; an empty string is a
    parameter that was not set. *)
Record FirewallsListCall := mkFirewallsListCall {
  lc_project : string;
  lc_filter : string;
  lc_pageToken : string
}.

(** What a remote call answers: a response or an error. *)
Inductive reply (A : Type) : Type :=
| Resp (a : A)
| Err (e : error).
Arguments Resp {A} a.
Arguments Err {A} e.

(** ** The log of effects *)

Inductive Event :=
| EvProjectsCreate (p : Project)
| EvProjectsGet (pid : string)
| EvProjectsUpdate (pid : string) (p : Project)
| EvProjectsDelete (pid : string)
| EvGetBillingInfo (name : string)
| EvUpdateBillingInfo (name : string) (ba : ProjectBillingInfo)
| EvFirewallsList (c : FirewallsListCall)
| EvFirewallsDelete (project firewall : string)
| EvResourceManagerOperationWait (op : Operation) (activity : string)
| EvComputeSharedOperationWait (op : Operation) (project activity : string)
| EvEnableService (service project : string)
| EvDeleteComputeNetwork (project network : string)
| EvSleep (d : Z)
| EvSetId (id : string).

(** ** Outcomes *)

Inductive outcome (A : Type) : Type :=
| Ok (a : A)                (* the function went on, or returned nil *)
| Fail (e : error)          (* return err *)
| Panic (msg : string)      (* a run-time panic *)
| OutOfFuel.                (* the loop bound of the model was reached *)
Arguments Ok {A} a.
Arguments Fail {A} e.
Arguments Panic {A} msg.
Arguments OutOfFuel {A}.

Section Resource.

(** The world behind the remote services. *)
Variable W : Type.

Definition remote (A : Type) : Type := W -> reply A * W.

(** [Config]: the clients, and the helpers of the provider that live in
    other files and only call the remote side. *)
Record Config := mkConfig {
  Projects_Create : Project -> remote Operation;
  Projects_Get : string -> remote Project;
  Projects_Update : string -> Project -> remote Project;
  Projects_Delete : string -> remote unit;
  Projects_GetBillingInfo : string -> remote ProjectBillingInfo;
  Projects_UpdateBillingInfo : string -> ProjectBillingInfo -> remote ProjectBillingInfo;
  Firewalls_List : FirewallsListCall -> remote FirewallList;
  Firewalls_Delete : string -> string -> remote Operation;
  cfg_resourceManagerOperationWait : Operation -> string -> remote unit;
  cfg_computeSharedOperationWait : Operation -> string -> string -> remote unit;
  cfg_enableService : string -> string -> remote unit;
  cfg_deleteComputeNetwork : string -> string -> remote unit
}.

Variable config : Config.

Record state := mkState {
  st_d : ResourceData;
  st_w : W;
  st_log : list Event
}.

Definition M (A : Type) : Type := state -> outcome A * state.

Definition ret {A} (a : A) : M A := fun s => (Ok a, s).

Definition bind {A B} (m : M A) (k : A -> M B) : M B :=
  fun s => match m s with
           | (Ok a, s') => k a s'
           | (Fail e, s') => (Fail e, s')
           | (Panic msg, s') => (Panic msg, s')
           | (OutOfFuel, s') => (OutOfFuel, s')
           end.

Definition fail {A} (e : error) : M A := fun s => (Fail e, s).
Definition panic {A} (msg : string) : M A := fun s => (Panic msg, s).
Definition outOfFuel {A} : M A := fun s => (OutOfFuel, s).

(** [if err = m; err != nil { return f(err) }] *)
Definition onError {A} (m : M A) (f : error -> error) : M A :=
  fun s => match m s with
           | (Fail e, s') => (Fail (f e), s')
           | other => other
           end.

(** Reading and writing the record. *)
Definition getD : M ResourceData := fun s => (Ok (st_d s), s).

Definition modifyD (f : ResourceData -> ResourceData) : M unit :=
  fun s => (Ok tt, mkState (f (st_d s)) (st_w s) (st_log s)).

Definition emit (e : Event) : M unit :=
  fun s => (Ok tt, mkState (st_d s) (st_w s) (st_log s ++ [e])).

(** A remote call: logged, then answered by the world. *)
Definition call {A} (e : Event) (h : remote A) : M (reply A) :=
  fun s => let (r, w') := h (st_w s) in
           (Ok r, mkState (st_d s) w' (st_log s ++ [e])).

Notation "x <- m ;; k" := (bind m (fun x => k))
  (at level 100, m at next level, right associativity).
Notation "m ;;; k" := (bind m (fun _ => k))
  (at level 100, right associativity).

(** [d.Id()], [d.Get(key)], [d.Set(key, v)], [d.SetId(v)] on the record
    of the state. *)
Definition Id : M string := d <- getD ;; ret (RD.Id d).
Definition Get (key : string) : M value := d <- getD ;; ret (RD.Get d key).
Definition GetOk (key : string) : M (value * bool) :=
  d <- getD ;; ret (RD.GetOk d key).
Definition HasChange (key : string) : M bool :=
  d <- getD ;; ret (RD.HasChange d key).
Definition Set_ (key : string) (v : value) : M unit := modifyD (RD.Set_ key v).
Definition SetId (v : string) : M unit :=
  modifyD (RD.SetId v) ;;; emit (EvSetId v).

(** The type assertions [v.(string)] and [v.(bool)]. *)
Definition asString (v : value) : M string :=
  match v with
  | VString s => ret s
  | VNil => panic "interface conversion: interface {} is nil, not string"
  | _ => panic "interface conversion: interface {} is not string"
  end.

Definition asBool (v : value) : M bool :=
  match v with
  | VBool b => ret b
  | VNil => panic "interface conversion: interface {} is nil, not bool"
  | _ => panic "interface conversion: interface {} is not bool"
  end.

(** Modelled from the spec: [handleNotFoundError] is defined in another
    file of the provider.  A not-found answer removes the record (the
    identifier is cleared) and is no error; any other error is returned
    with its context. *)
Definition handleNotFoundError (err : error) (resource : string) : M unit :=
  match err with
  | GoogleApiError code _ =>
      if (code =? StatusNotFound)%Z then SetId ""
      else fail (Errorf "Error reading %s: %s" [ArgString resource; ArgError err])
  | _ => fail (Errorf "Error reading %s: %s" [ArgString resource; ArgError err])
  end.

(** Modelled from the spec: [expandLabels] is defined in another file of
    the provider.  It yields the record's label set as a string map. *)
Definition expandLabels (d : ResourceData) : gmap string string :=
  match RD.Get d "labels" with
  | VMap m => m
  | _ => ∅
  end.

Definition prefixedProject (pid : string) : string := "projects/" +:+ pid.

Definition parseFolderId (v : value) : M string :=
  folderId <- asString v ;;
  if Strings.HasPrefix folderId "folders/"
  then ret (Strings.sliceFrom 8 folderId)
  else ret folderId.

(** [getParentResourceId(d, p)] writes through the pointer [p]; here it
    yields the project it leaves behind. *)
Definition getParentResourceId (p : Project) : M Project :=
  org <- GetOk "org_id" ;;
  p <- (if snd org
        then org_id <- asString (fst org) ;;
             ret (set_Parent (mkResourceId org_id "organization") p)
        else ret p) ;;
  folder <- GetOk "folder_id" ;;
  if snd folder
  then id <- parseFolderId (fst folder) ;;
       ret (set_Parent (mkResourceId id "folder") p)
  else ret p.

Definition resourceGoogleProjectRead : M unit :=
  pid <- Id ;;
  r <- call (EvProjectsGet pid) (Projects_Get config pid) ;;
  match r with
  | Err err => handleNotFoundError err ("Project " +:+ pid)
  | Resp p =>
      if Strings.neqb (p_LifecycleState p) "ACTIVE"
      then SetId ""
      else
        Set_ "project_id" (VString pid) ;;;
        Set_ "number" (VString (pretty (p_ProjectNumber p))) ;;;
        Set_ "name" (VString (p_Name p)) ;;;
        Set_ "labels" (VMap (p_Labels p)) ;;;
        match p_Parent p with
        | Some parent =>
            if String.eqb (ri_Type parent) "organization"
            then Set_ "org_id" (VString (ri_Id parent)) ;;;
                 Set_ "folder_id" (VString "")
            else if String.eqb (ri_Type parent) "folder"
            then Set_ "folder_id" (VString (ri_Id parent)) ;;;
                 Set_ "org_id" (VString "")
            else ret tt
        | None => ret tt
        end ;;;
        r <- call (EvGetBillingInfo (prefixedProject pid))
                  (Projects_GetBillingInfo config (prefixedProject pid)) ;;
        match r with
        | Err err =>
            fail (Errorf "Error reading billing account for project %q: %v"
                         [ArgString (prefixedProject pid); ArgError err])
        | Resp ba =>
            if Strings.neqb (ba_BillingAccountName ba) ""
            then
              let _ba := Strings.TrimPrefix (ba_BillingAccountName ba)
                                            "billingAccounts/" in
              if String.eqb (ba_BillingAccountName ba) _ba
              then fail (Errorf "Error parsing billing account for project %q. Expected value to begin with 'billingAccounts/' but got %s"
                                [ArgString (prefixedProject pid);
                                 ArgString (ba_BillingAccountName ba)])
              else Set_ "billing_account" (VString _ba)
            else ret tt
        end
  end.

(** The body of [for retries := 0; retries < 3; retries++]; [budget] is
    [3 - retries]. *)
Fixpoint billingPoll (budget : nat) (name : string) : M unit :=
  match budget with
  | O => ret tt
  | S budget' =>
      resourceGoogleProjectRead ;;;
      v <- Get "billing_account" ;;
      got <- asString v ;;
      if String.eqb got name
      then ret tt
      else emit (EvSleep 3) ;;; billingPoll budget' name
  end.

Definition updateProjectBillingAccount : M unit :=
  pid <- Id ;;
  v <- Get "billing_account" ;;
  name <- asString v ;;
  let ba := emptyProjectBillingInfo in
  let ba := if Strings.neqb name ""
            then set_BillingAccountName ("billingAccounts/" +:+ name) ba
            else ba in
  r <- call (EvUpdateBillingInfo (prefixedProject pid) ba)
            (Projects_UpdateBillingInfo config (prefixedProject pid) ba) ;;
  match r with
  | Err err =>
      Set_ "billing_account" (VString "") ;;;
      match err with
      | GoogleApiError _ _ =>
          fail (Errorf "Error setting billing account %q for project %q: %v"
                       [ArgString name; ArgString (prefixedProject pid);
                        ArgError err])
      | _ =>
          fail (Errorf "Error setting billing account %q for project %q: %v"
                       [ArgString name; ArgString (prefixedProject pid);
                        ArgError err])
      end
  | Resp _ =>
      billingPoll 3 name ;;;
      v <- Get "billing_account" ;;
      got <- asString v ;;
      if Strings.neqb got name
      then
        v <- Get "billding_account" ;;
        a <- asString v ;;
        fail (Errorf "Timed out waiting for billing account to return correct value.  Waiting for %s, got %s."
                     [ArgString a; ArgString name])
      else ret tt
  end.

(** One [Projects.Update(p.ProjectId, p).Do()] of [Update], with its
    error return. *)
Definition updateProject (project_name : string) (p : Project) : M Project :=
  r <- call (EvProjectsUpdate (p_ProjectId p) p)
            (Projects_Update config (p_ProjectId p) p) ;;
  match r with
  | Err err =>
      fail (Errorf "Error updating project %q: %s"
                   [ArgString project_name; ArgError err])
  | Resp p' => ret p'
  end.

Definition resourceGoogleProjectUpdate : M unit :=
  pid <- Id ;;
  v <- Get "name" ;;
  project_name <- asString v ;;
  r <- call (EvProjectsGet pid) (Projects_Get config pid) ;;
  match r with
  | Err err =>
      match err with
      | GoogleApiError code _ =>
          if (code =? StatusNotFound)%Z
          then fail (Errorf "Project %q does not exist." [ArgString pid])
          else fail (Errorf "Error checking project %q: %s"
                            [ArgString pid; ArgError err])
      | _ => fail (Errorf "Error checking project %q: %s"
                          [ArgString pid; ArgError err])
      end
  | Resp p =>
      modifyD (RD.Partial true) ;;;
      (* Project display name has changed *)
      nameChanged <- HasChange "name" ;;
      p <- (if nameChanged : bool
            then p <- updateProject project_name (set_Name project_name p) ;;
                 modifyD (RD.SetPartial "name") ;;;
                 ret p
            else ret p) ;;
      (* Project parent has changed *)
      orgChanged <- HasChange "org_id" ;;
      folderChanged <- (if orgChanged : bool then ret true
                        else HasChange "folder_id") ;;
      p <- (if folderChanged : bool
            then p <- getParentResourceId p ;;
                 p <- updateProject project_name p ;;
                 modifyD (RD.SetPartial "org_id") ;;;
                 modifyD (RD.SetPartial "folder_id") ;;;
                 ret p
            else ret p) ;;
      (* Billing account has changed *)
      billingChanged <- HasChange "billing_account" ;;
      (if billingChanged : bool then updateProjectBillingAccount else ret tt) ;;;
      (* Project Labels have changed *)
      labelsChanged <- HasChange "labels" ;;
      (if labelsChanged : bool
       then d <- getD ;;
            p <- updateProject project_name (set_Labels (expandLabels d) p) ;;
            ret tt
       else ret tt) ;;;
      modifyD (RD.Partial false)
  end.

Definition resourceGoogleProjectDelete : M unit :=
  v <- Get "skip_delete" ;;
  skip <- asBool v ;;
  (* Only delete projects if skip_delete isn't set *)
  (if negb skip
   then pid <- Id ;;
        r <- call (EvProjectsDelete pid) (Projects_Delete config pid) ;;
        match r with
        | Err err =>
            fail (Errorf "Error deleting project %q: %s"
                         [ArgString pid; ArgError err])
        | Resp _ => ret tt
        end
   else ret tt) ;;;
  SetId "".

(** [resourceProjectImportState]; the one-element slice it returns is
    the record itself. *)
Definition resourceProjectImportState : M unit :=
  Set_ "auto_create_network" (VBool true).

(** The loop [for _, firewall := range resp.Items]. *)
Fixpoint deleteFirewalls (projectId : string) (items : list Firewall) : M unit :=
  match items with
  | [] => ret tt
  | firewall :: items' =>
      r <- call (EvFirewallsDelete projectId (fw_Name firewall))
                (Firewalls_Delete config projectId (fw_Name firewall)) ;;
      match r with
      | Err err => fail (Errorf "Error deleting firewall: %s" [ArgError err])
      | Resp op =>
          r <- call (EvComputeSharedOperationWait op projectId "Deleting Firewall")
                    (cfg_computeSharedOperationWait config op projectId
                                                    "Deleting Firewall") ;;
          match r with
          | Err err => fail err
          | Resp _ => deleteFirewalls projectId items'
          end
      end
  end.

(** The loop [for paginate := true; paginate; { ... }]: one unit of
    [fuel] per iteration.  [token] is the loop's variable of that name;
    the listing call is built from the project and the filter alone. *)
Fixpoint paginateFirewalls (fuel : nat) (projectId networkName networkLink : string)
         (token : string) : M unit :=
  match fuel with
  | O => outOfFuel
  | S fuel' =>
      let filter := "network eq " +:+ networkLink in
      r <- call (EvFirewallsList (mkFirewallsListCall projectId filter ""))
                (Firewalls_List config (mkFirewallsListCall projectId filter "")) ;;
      match r with
      | Err err =>
          fail (Errorf "Error listing firewall rules in proj: %s" [ArgError err])
      | Resp resp =>
          deleteFirewalls projectId (fl_Items resp) ;;;
          let token := fl_NextPageToken resp in
          if Strings.neqb token ""
          then paginateFirewalls fuel' projectId networkName networkLink token
          else ret tt
      end
  end.

(** Delete a compute network along with the firewall rules inside it. *)
Definition forceDeleteComputeNetwork (fuel : nat) (projectId networkName : string)
  : M unit :=
  let networkLink :=
    "https://www.googleapis.com/compute/v1/projects/" +:+ projectId
      +:+ "/global/networks/" +:+ networkName in
  paginateFirewalls fuel projectId networkName networkLink "" ;;;
  r <- call (EvDeleteComputeNetwork projectId networkName)
            (cfg_deleteComputeNetwork config projectId networkName) ;;
  match r with
  | Err err => fail err
  | Resp _ => ret tt
  end.

Definition resourceGoogleProjectCreate (fuel : nat) : M unit :=
  v <- Get "project_id" ;;
  pid <- asString v ;;
  v <- Get "name" ;;
  name <- asString v ;;
  let project := mkProject "" ∅ "" name None pid 0 in
  project <- getParentResourceId project ;;
  labels <- GetOk "labels" ;;
  d <- getD ;;
  let project := if snd labels then set_Labels (expandLabels d) project
                 else project in
  r <- call (EvProjectsCreate project) (Projects_Create config project) ;;
  match r with
  | Err err =>
      fail (Errorf "Error creating project %s (%s): %s."
                   [ArgString (p_ProjectId project); ArgString (p_Name project);
                    ArgError err])
  | Resp op =>
      SetId pid ;;;
      (* Wait for the operation to complete *)
      r <- call (EvResourceManagerOperationWait op "project to create")
                (cfg_resourceManagerOperationWait config op "project to create") ;;
      match r with
      | Err waitErr =>
          (* The resource wasn't actually created *)
          SetId "" ;;;
          fail waitErr
      | Resp _ =>
          (* Set the billing account *)
          billing <- GetOk "billing_account" ;;
          (if snd billing then updateProjectBillingAccount else ret tt) ;;;
          resourceGoogleProjectRead ;;;
          v <- Get "auto_create_network" ;;
          auto <- asBool v ;;
          if negb auto
          then
            (* The compute API has to be enabled before we can delete a network. *)
            r <- call (EvEnableService "compute.googleapis.com" (p_ProjectId project))
                      (cfg_enableService config "compute.googleapis.com"
                                         (p_ProjectId project)) ;;
            match r with
            | Err err =>
                fail (Errorf "Error enabling the Compute Engine API required to delete the default network: %s"
                             [ArgError err])
            | Resp _ =>
                onError
                  (forceDeleteComputeNetwork fuel (p_ProjectId project) "default")
                  (fun err =>
                     Errorf "Error deleting default network in project %s: %s"
                            [ArgString (p_ProjectId project); ArgError err])
            end
          else ret tt
      end
  end.

End Resource.

Arguments mkConfig {W}.
Arguments Projects_Create {W} c.
Arguments Projects_Get {W} c.
Arguments Projects_Update {W} c.
Arguments Projects_Delete {W} c.
Arguments Projects_GetBillingInfo {W} c.
Arguments Projects_UpdateBillingInfo {W} c.
Arguments Firewalls_List {W} c.
Arguments Firewalls_Delete {W} c.
Arguments cfg_resourceManagerOperationWait {W} c.
Arguments cfg_computeSharedOperationWait {W} c.
Arguments cfg_enableService {W} c.
Arguments cfg_deleteComputeNetwork {W} c.
Arguments mkState {W} st_d st_w st_log.
Arguments st_d {W} s.
Arguments st_w {W} s.
Arguments st_log {W} s.
Arguments ret {W A} a s.
Arguments bind {W A B} m k s.
Arguments fail {W A} e s.
Arguments panic {W A} msg s.
Arguments outOfFuel {W A} s.
Arguments onError {W A} m f s.
Arguments getD {W} s.
Arguments modifyD {W} f s.
Arguments emit {W} e s.
Arguments call {W A} e h s.
Arguments Id {W} s.
Arguments Get {W} key s.
Arguments GetOk {W} key s.
Arguments HasChange {W} key s.
Arguments Set_ {W} key v s.
Arguments SetId {W} v s.
Arguments asString {W} v s.
Arguments asBool {W} v s.
Arguments handleNotFoundError {W} err resource s.
Arguments parseFolderId {W} v s.
Arguments getParentResourceId {W} p s.
Arguments resourceGoogleProjectRead {W} config s.
Arguments billingPoll {W} config budget name s.
Arguments updateProjectBillingAccount {W} config s.
Arguments updateProject {W} config project_name p s.
Arguments resourceGoogleProjectUpdate {W} config s.
Arguments resourceGoogleProjectDelete {W} config s.
Arguments resourceProjectImportState {W} s.
Arguments deleteFirewalls {W} config projectId items s.
Arguments paginateFirewalls {W} config fuel projectId networkName networkLink token s.
Arguments forceDeleteComputeNetwork {W} config fuel projectId networkName s.
Arguments resourceGoogleProjectCreate {W} config fuel s.

(** ** A scripted remote side

    A [Config] over the one-point world that answers every call from a
    fixed script; the firewall listing answers by the request it gets. *)

Module Mock.

Record Script := mkScript {
  on_Create : reply Operation;
  on_Get : reply Project;
  on_Update : Project -> reply Project;
  on_Delete : reply unit;
  on_GetBillingInfo : reply ProjectBillingInfo;
  on_UpdateBillingInfo : reply ProjectBillingInfo;
  on_List : FirewallsListCall -> reply FirewallList;
  on_Wait : reply unit
}.

Definition config (sc : Script) : Config unit :=
  mkConfig
    (fun _ w => (on_Create sc, w))
    (fun _ w => (on_Get sc, w))
    (fun _ p w => (on_Update sc p, w))
    (fun _ w => (on_Delete sc, w))
    (fun _ w => (on_GetBillingInfo sc, w))
    (fun _ _ w => (on_UpdateBillingInfo sc, w))
    (fun c w => (on_List sc c, w))
    (fun _ _ w => (Resp (mkOperation "operation-1"), w))
    (fun _ _ w => (on_Wait sc, w))
    (fun _ _ _ w => (Resp tt, w))
    (fun _ _ w => (Resp tt, w))
    (fun _ _ w => (Resp tt, w)).

(** A record as the host hands it over: identifier, prior state and
    planned values; nothing written yet. *)
Definition record (id : string) (prior planned : list (string * value))
  : ResourceData :=
  mkResourceData id (list_to_map prior) (list_to_map planned) ∅ false ∅.

Definition activeProject : Project :=
  mkProject "2017-01-01T00:00:00Z" ∅ "ACTIVE" "Test"
            (Some (mkResourceId "123" "organization")) "p1" 42.

Definition billingInfo (name : string) : ProjectBillingInfo :=
  mkProjectBillingInfo name true "projects/p1/billingInfo" "p1" [].

(** A listing in two pages: the second page is only served to a request
    that carries the token of the first. *)
Definition twoPages (c : FirewallsListCall) : reply FirewallList :=
  if String.eqb (lc_pageToken c) "t1"
  then Resp (mkFirewallList [mkFirewall "allow-ssh" "default"] "")
  else Resp (mkFirewallList [mkFirewall "allow-icmp" "default"] "t1").

Definition script : Script :=
  mkScript (Resp (mkOperation "operations/cp.1"))
           (Resp activeProject)
           (fun p => Resp p)
           (Resp tt)
           (Resp (billingInfo ""))
           (Resp (billingInfo ""))
           twoPages
           (Resp tt).

End Mock.

(** ** What a computation adds to the log *)

(** [appends P m]: running [m] only appends to the log, and every event
    it appends satisfies [P]. *)
Definition appends {W A} (P : Event -> Prop) (m : M W A) : Prop :=
  forall s, exists l, st_log (snd (m s)) = st_log s ++ l /\ Forall P l.

Definition anyEvent (e : Event) : Prop := True.

(** A firewall listing request that carries no page token. *)
Definition withoutPageToken (e : Event) : Prop :=
  match e with
  | EvFirewallsList c => lc_pageToken c = ""
  | _ => True
  end.

(** Any event but a billing update. *)
Definition notUpdateBillingInfo (e : Event) : Prop :=
  match e with
  | EvUpdateBillingInfo _ _ => False
  | _ => True
  end.

(** ** Definitions used to state the properties *)

(** What [Read] writes into the record of an active project before it
    asks for the billing account. *)
Definition readFields (pid : string) (p : Project) (d : ResourceData)
  : ResourceData :=
  let d := RD.Set_ "project_id" (VString pid) d in
  let d := RD.Set_ "number" (VString (pretty (p_ProjectNumber p))) d in
  let d := RD.Set_ "name" (VString (p_Name p)) d in
  let d := RD.Set_ "labels" (VMap (p_Labels p)) d in
  match p_Parent p with
  | Some parent =>
      if String.eqb (ri_Type parent) "organization"
      then RD.Set_ "folder_id" (VString "")
             (RD.Set_ "org_id" (VString (ri_Id parent)) d)
      else if String.eqb (ri_Type parent) "folder"
      then RD.Set_ "org_id" (VString "")
             (RD.Set_ "folder_id" (VString (ri_Id parent)) d)
      else d
  | None => d
  end.

(** A field of the record is set when [GetOk] says so. *)
Definition isSet (d : ResourceData) (key : string) : bool := snd (RD.GetOk d key).

(** The parent as the folder-first reading resolves it: the folder, its
    "folders/" prefix stripped, when the folder field is set; otherwise the
    organization when that field is set; otherwise the parent as it was. *)
Definition folderFirstParent (d : ResourceData) (old : option ResourceId)
  : option ResourceId :=
  if isSet d "folder_id"
  then Some (mkResourceId
               (Strings.TrimPrefix (RD.GetString d "folder_id") "folders/")
               "folder")
  else if isSet d "org_id"
  then Some (mkResourceId (RD.GetString d "org_id") "organization")
  else old.

Definition withParent (parent : option ResourceId) (p : Project) : Project :=
  mkProject (p_CreateTime p) (p_Labels p) (p_LifecycleState p) (p_Name p)
            parent (p_ProjectId p) (p_ProjectNumber p).

(** The creation request that [Create] submits for a record. *)
Definition createRequest (d : ResourceData) : Project :=
  let project :=
    withParent (folderFirstParent d None)
               (mkProject "" ∅ "" (RD.GetString d "name") None
                          (RD.GetString d "project_id") 0) in
  if isSet d "labels" then set_Labels (expandLabels d) project else project.

(** The billing payload in the words of the design: nothing at all for an
    empty desired value, the prefixed name otherwise. *)
Definition billingPayload (name : string) : ProjectBillingInfo :=
  if decide (name = "") then emptyProjectBillingInfo
  else mkProjectBillingInfo ("billingAccounts/" +:+ name) false "" "" [].

(** Concrete records and scripts for the examples. *)
Module Examples.
Import Mock.

(** A record of project "p1" whose stored billing account is "OLD". *)
Definition stored : ResourceData :=
  record "p1" [("project_id", VString "p1"); ("name", VString "Test");
               ("billing_account", VString "OLD")] [].

(** A record whose planned billing account "NEW" replaces "OLD". *)
Definition relink : ResourceData :=
  record "p1" [("project_id", VString "p1"); ("name", VString "Test");
               ("billing_account", VString "OLD")]
              [("billing_account", VString "NEW")].

(** A record in which only the labels change. *)
Definition relabel : ResourceData :=
  record "p1" [("project_id", VString "p1"); ("name", VString "Test");
               ("org_id", VString "123")]
              [("labels", VMap {[ "env" := "prod" ]})].

(** A planned project with both parent fields present. *)
Definition bothParents : ResourceData :=
  record "" [] [("project_id", VString "p1"); ("name", VString "Test");
                ("org_id", VString "123"); ("folder_id", VString "folders/456")].

Definition skipping : ResourceData :=
  record "p1" [("project_id", VString "p1"); ("skip_delete", VBool true)] [].

(** The billing service reports the account [name]. *)
Definition billed (name : string) : Script :=
  mkScript (Resp (mkOperation "operations/cp.1"))
           (Resp activeProject)
           (fun p => Resp p)
           (Resp tt)
           (Resp (billingInfo name))
           (Resp (billingInfo name))
           twoPages
           (Resp tt).

(** The project is pending deletion. *)
Definition deleteRequested : Script :=
  mkScript (Resp (mkOperation "operations/cp.1"))
           (Resp (mkProject "2017-01-01T00:00:00Z" ∅ "DELETE_REQUESTED" "Test"
                            None "p1" 42))
           (fun p => Resp p)
           (Resp tt)
           (Resp (billingInfo ""))
           (Resp (billingInfo ""))
           twoPages
           (Resp tt).

(** The creation is accepted and the wait on it fails. *)
Definition waitFails : Script :=
  mkScript (Resp (mkOperation "operations/cp.1"))
           (Resp activeProject)
           (fun p => Resp p)
           (Resp tt)
           (Resp (billingInfo ""))
           (Resp (billingInfo ""))
           twoPages
           (Err (OtherError "operation failed")).

End Examples.

(** ** Invariants of the record along a run *)

(** [maintains I P m]: started on a record that satisfies [I], the run of
    [m] only appends events that satisfy [P] and ends on a record that
    satisfies [I], whatever its outcome. *)
Definition maintains {W A} (I : ResourceData -> Prop) (P : Event -> Prop)
           (m : M W A) : Prop :=
  forall s, I (st_d s) ->
            exists l, st_log (snd (m s)) = st_log s ++ l
                      /\ Forall P l
                      /\ I (st_d (snd (m s))).

(** What Read and the billing step leave alone, relative to the record
    [d0] they start from: the change tracking, the two flags, and the
    identifier unless it is cleared. *)
Definition kept (d0 d : ResourceData) : Prop :=
  (forall k, RD.HasChange d k = RD.HasChange d0 k)
  /\ RD.Get d "auto_create_network" = RD.Get d0 "auto_create_network"
  /\ RD.Get d "skip_delete" = RD.Get d0 "skip_delete"
  /\ (rd_id d = rd_id d0 \/ rd_id d = "").

(** The record asks for the default network to be kept. *)
Definition autoOn (d : ResourceData) : Prop :=
  RD.Get d "auto_create_network" = VBool true.

(** Events of the compute side: enabling the service, and the firewall and
    network calls. *)
Definition notCompute (e : Event) : Prop :=
  match e with
  | EvEnableService _ _ | EvFirewallsList _ | EvFirewallsDelete _ _
  | EvComputeSharedOperationWait _ _ _ | EvDeleteComputeNetwork _ _ => False
  | _ => True
  end.



(** The firewall rules a log deletes, in the order of the calls. *)
Definition deletedFirewalls (l : list Event) : list string :=
  omap (fun e => match e with
                 | EvFirewallsDelete _ name => Some name
                 | _ => None
                 end) l.

(** How many project fetches and how many sleeps a log holds. *)
Definition isProjectsGet (e : Event) : bool :=
  match e with EvProjectsGet _ => true | _ => false end.

Definition isSleep (e : Event) : bool :=
  match e with EvSleep _ => true | _ => false end.

Definition countEvents (f : Event -> bool) (l : list Event) : nat :=
  length (List.filter f l).

(** [bounded f n m]: the run of [m] only appends to the log, and at most
    [n] of the events it appends are counted by [f]. *)
Definition bounded {W A} (f : Event -> bool) (n : nat) (m : M W A) : Prop :=
  forall s, exists l, st_log (snd (m s)) = st_log s ++ l
                      /\ countEvents f l <= n.

(** More records and scripts for the examples. *)
Module Cases.
Import Mock.

(** A planned project that keeps its default network and has no billing
    account. *)
Definition plain : ResourceData :=
  record "" [] [("project_id", VString "p1"); ("name", VString "Test");
                ("org_id", VString "123");
                ("auto_create_network", VBool true)].

(** A planned project with a billing account. *)
Definition billedPlan : ResourceData :=
  record "" [] [("project_id", VString "p1"); ("name", VString "Test");
                ("billing_account", VString "NEW");
                ("auto_create_network", VBool true)].

(** A stored project whose name and labels are both planned to change. *)
Definition renameRelabel : ResourceData :=
  record "p1" [("project_id", VString "p1"); ("name", VString "Test")]
              [("name", VString "Renamed");
               ("labels", VMap {[ "env" := "prod" ]})].

(** A stored project whose billing account and labels are both planned to
    change. *)
Definition relinkRelabel : ResourceData :=
  record "p1" [("project_id", VString "p1"); ("name", VString "Test");
               ("billing_account", VString "OLD")]
              [("billing_account", VString "NEW");
               ("labels", VMap {[ "env" := "prod" ]})].

(** A stored project with nothing planned. *)
Definition unchanged : ResourceData :=
  record "p1" [("project_id", VString "p1"); ("name", VString "Test")] [].

(** The project of the remote side lives in a folder. *)
Definition inFolder : Project :=
  mkProject "2017-01-01T00:00:00Z" ∅ "ACTIVE" "Test"
            (Some (mkResourceId "456" "folder")) "p1" 42.

(** An active project that has no parent. *)
Definition orphan : Project :=
  mkProject "2017-01-01T00:00:00Z" ∅ "ACTIVE" "Test" None "p1" 42.

(** The remote side serves the project [p] and reports no billing
    account. *)
Definition serving (p : Project) : Script :=
  mkScript (Resp (mkOperation "operations/cp.1"))
           (Resp p)
           (fun p => Resp p)
           (Resp tt)
           (Resp (billingInfo ""))
           (Resp (billingInfo ""))
           twoPages
           (Resp tt).

(** Every call fails with the same error. *)
Definition failing (err : error) : Script :=
  mkScript (Err err) (Err err) (fun _ => Err err) (Err err) (Err err) (Err err)
           (fun _ => Err err) (Err err).

(** Only the billing calls fail. *)
Definition billingDown (err : error) : Script :=
  mkScript (Resp (mkOperation "operations/cp.1"))
           (Resp activeProject)
           (fun p => Resp p)
           (Resp tt)
           (Err err)
           (Err err)
           twoPages
           (Resp tt).

(** Updates are refused, everything else answers. *)
Definition updateRefused (err : error) : Script :=
  mkScript (Resp (mkOperation "operations/cp.1"))
           (Resp activeProject)
           (fun _ => Err err)
           (Resp tt)
           (Resp (billingInfo ""))
           (Resp (billingInfo ""))
           twoPages
           (Resp tt).

(** The update answers with the project it was given, its number bumped
    so that the answer can be told from the fetched object. *)
Definition bumping : Script :=
  mkScript (Resp (mkOperation "operations/cp.1"))
           (Resp activeProject)
           (fun p => Resp (mkProject (p_CreateTime p) (p_Labels p)
                                     (p_LifecycleState p) (p_Name p) (p_Parent p)
                                     (p_ProjectId p) (p_ProjectNumber p + 1)))
           (Resp tt)
           (Resp (billingInfo ""))
           (Resp (billingInfo ""))
           twoPages
           (Resp tt).



End Cases.

(** * Properties *)

(** ** Strings *)

Module StringFacts.
Import Strings.

Lemma HasPrefix_append (p r : string) : HasPrefix (p +:+ r) p = true.
Proof.
  induction p as [|c p IH]; [reflexivity|].
  change (String c p +:+ r) with (String c (p +:+ r)).
  cbn [HasPrefix]. now rewrite Ascii.eqb_refl.
Qed.

Lemma sliceFrom_append (p r : string) : sliceFrom (String.length p) (p +:+ r) = r.
Proof. induction p as [|c p IH]; [reflexivity|exact IH]. Qed.

Lemma HasPrefix_split (s p : string) :
  HasPrefix s p = true -> s = p +:+ sliceFrom (String.length p) s.
Proof.
  revert s. induction p as [|c p IH]; intros s H; [reflexivity|].
  destruct s as [|c' s]; [discriminate|].
  cbn [HasPrefix] in H. destruct (Ascii.eqb_spec c' c) as [->|]; [|discriminate].
  change (String c p +:+ ?x) with (String c (p +:+ x)).
  cbn [String.length sliceFrom]. f_equal. now apply IH.
Qed.

Lemma length_append (a b : string) :
  String.length (a +:+ b) = String.length a + String.length b.
Proof.
  induction a as [|c a IH]; [reflexivity|].
  change (String c a +:+ b) with (String c (a +:+ b)).
  cbn [String.length]. now rewrite IH.
Qed.

Lemma append_neq (p r : string) : p <> "" -> p +:+ r <> r.
Proof.
  intros Hp E. apply (f_equal String.length) in E.
  rewrite length_append in E. destruct p; [congruence|].
  cbn [String.length] in E. lia.
Qed.

Lemma TrimPrefix_append (p r : string) : TrimPrefix (p +:+ r) p = r.
Proof. unfold TrimPrefix. now rewrite HasPrefix_append, sliceFrom_append. Qed.

Lemma TrimPrefix_without (s p : string) :
  (forall r, s <> p +:+ r) -> TrimPrefix s p = s.
Proof.
  intros H. unfold TrimPrefix.
  destruct (HasPrefix s p) eqn:E; [|reflexivity].
  apply HasPrefix_split in E. now apply H in E.
Qed.

Lemma neqb_true (a b : string) : neqb a b = true <-> a <> b.
Proof.
  unfold neqb. destruct (String.eqb_spec a b); cbn; split; intros; congruence.
Qed.

Lemma neqb_false (a b : string) : neqb a b = false <-> a = b.
Proof.
  unfold neqb. destruct (String.eqb_spec a b); cbn; split; intros; congruence.
Qed.

End StringFacts.

(** ** The record *)

Module RDFacts.

Lemma typed_string (key : string) (o : option value) :
  schemaType Schema key = Some TypeString ->
  exists s, RD.typed key o = VString s.
Proof.
  intros H. unfold RD.typed. rewrite H.
  destruct o as [[| s | b | m]|]; cbn; eauto.
Qed.

Lemma Get_string (d : ResourceData) (key : string) :
  schemaType Schema key = Some TypeString ->
  RD.Get d key = VString (RD.GetString d key).
Proof.
  intros H. unfold RD.GetString.
  destruct (typed_string key (RD.readSet d key) H) as [s Hs].
  unfold RD.Get. now rewrite Hs.
Qed.


Lemma GetOk_fst (d : ResourceData) (key : string) :
  fst (RD.GetOk d key) = RD.Get d key.
Proof. reflexivity. Qed.

Lemma Get_SetId (v : string) (d : ResourceData) (key : string) :
  RD.Get (RD.SetId v d) key = RD.Get d key.
Proof. reflexivity. Qed.

Lemma Get_Set_ne (k k' : string) (v : value) (d : ResourceData) :
  k <> k' -> RD.Get (RD.Set_ k v d) k' = RD.Get d k'.
Proof.
  intros Hne. unfold RD.Set_.
  destruct (schemaType Schema k) as [t|]; [|reflexivity].
  destruct (hasType t v); [|reflexivity].
  unfold RD.Get, RD.readSet. cbn [rd_set].
  now rewrite lookup_insert_ne.
Qed.

Lemma Get_Set_eq (k : string) (s : string) (d : ResourceData) :
  schemaType Schema k = Some TypeString ->
  RD.Get (RD.Set_ k (VString s) d) k = VString s.
Proof.
  intros H. unfold RD.Set_. rewrite H. cbn [hasType].
  unfold RD.Get, RD.readSet, RD.typed. cbn [rd_set].
  now rewrite lookup_insert_eq, H.
Qed.

Lemma id_Set (k : string) (v : value) (d : ResourceData) :
  rd_id (RD.Set_ k v d) = rd_id d.
Proof.
  unfold RD.Set_. destruct (schemaType Schema k) as [t|]; [|reflexivity].
  now destruct (hasType t v).
Qed.

Lemma HasChange_Set (k k' : string) (v : value) (d : ResourceData) :
  RD.HasChange (RD.Set_ k v d) k' = RD.HasChange d k'.
Proof.
  unfold RD.Set_. destruct (schemaType Schema k) as [t|]; [|reflexivity].
  now destruct (hasType t v).
Qed.

End RDFacts.

(** ** Running a remote call *)

Lemma bind_call {W A B} (e : Event) (h : remote W A) (k : reply A -> M W B)
      (s : state W) (r : reply A) (w' : W) :
  h (st_w s) = (r, w') ->
  bind (call e h) k s = k r (mkState (st_d s) w' (st_log s ++ [e])).
Proof. intros H. unfold bind, call. now rewrite H. Qed.

Lemma bind_ok {W A B} (m : M W A) (k : A -> M W B) (s s' : state W) (a : A) :
  m s = (Ok a, s') -> bind m k s = k a s'.
Proof. intros H. unfold bind. now rewrite H. Qed.

Lemma bind_bind {W A B C} (m : M W A) (k : A -> M W B) (k' : B -> M W C)
      (s : state W) :
  bind (bind m k) k' s = bind m (fun a => bind (k a) k') s.
Proof. unfold bind. now destruct (m s) as [[a|e|msg|] s1]. Qed.

(** Unfolds the monad at the head of a run. *)
Ltac run1 :=
  cbn [bind ret fail panic Id Get GetOk HasChange Set_ SetId getD modifyD
       emit st_d st_w st_log fst snd]; unfold RD.Id.

Ltac run := run1; repeat (rewrite bind_bind; run1).

(** The same for a run that is a single primitive. *)
Ltac run_leaf :=
  unfold SetId, Set_, emit, modifyD, ret, fail, panic;
  cbn [bind st_d st_w st_log fst snd].

(** Answers the remote call at the head of a run from a hypothesis. *)
Ltac answer H :=
  erewrite bind_call by (cbn [st_w]; exact H); run.

(** ** The log only grows *)

Section LogFacts.

Context {W : Type} (P : Event -> Prop).

Lemma appends_ret {A} (a : A) : appends P (@ret W A a).
Proof. intros s. exists []. cbn. now rewrite app_nil_r. Qed.

Lemma appends_fail {A} (e : error) : appends P (@fail W A e).
Proof. intros s. exists []. cbn. now rewrite app_nil_r. Qed.

Lemma appends_panic {A} (msg : string) : appends P (@panic W A msg).
Proof. intros s. exists []. cbn. now rewrite app_nil_r. Qed.

Lemma appends_outOfFuel {A} : appends P (@outOfFuel W A).
Proof. intros s. exists []. cbn. now rewrite app_nil_r. Qed.

Lemma appends_getD : appends P (@getD W).
Proof. intros s. exists []. cbn. now rewrite app_nil_r. Qed.

Lemma appends_modifyD (f : ResourceData -> ResourceData) :
  appends P (@modifyD W f).
Proof. intros s. exists []. cbn. now rewrite app_nil_r. Qed.

Lemma appends_emit (e : Event) : P e -> appends P (@emit W e).
Proof. intros He s. exists [e]. cbn. split; [reflexivity|]. now constructor. Qed.

Lemma appends_call {A} (e : Event) (h : remote W A) :
  P e -> appends P (call e h).
Proof.
  intros He s. exists [e]. unfold call. destruct (h (st_w s)) as [r w'].
  cbn. split; [reflexivity|]. now constructor.
Qed.

Lemma appends_bind {A B} (m : M W A) (k : A -> M W B) :
  appends P m -> (forall a, appends P (k a)) -> appends P (bind m k).
Proof.
  intros Hm Hk s. unfold bind.
  destruct (Hm s) as [l1 [E1 F1]].
  destruct (m s) as [[a| e | msg |] s1]; cbn [snd] in E1.
  - destruct (Hk a s1) as [l2 [E2 F2]].
    exists (l1 ++ l2). rewrite E2, E1, app_assoc. split; [reflexivity|].
    now apply Forall_app.
  - exists l1. now split.
  - exists l1. now split.
  - exists l1. now split.
Qed.

Lemma appends_onError {A} (m : M W A) (f : error -> error) :
  appends P m -> appends P (onError m f).
Proof.
  intros Hm s. unfold onError. destruct (Hm s) as [l [E F]].
  destruct (m s) as [[a| e | msg |] s1]; exists l; now split.
Qed.

End LogFacts.

Create HintDb appends.

#[local] Hint Resolve appends_ret appends_fail appends_panic appends_outOfFuel
  appends_getD appends_modifyD : appends.

(** Walks down the binds and the case distinctions of a computation. *)
Ltac appends_step :=
  match goal with
  | |- appends _ (bind _ _) => apply appends_bind; [|intros ?]
  | |- appends _ (onError _ _) => apply appends_onError
  | |- appends _ (call _ _) =>
      apply appends_call; first [exact I | reflexivity | solve [auto]]
  | |- appends _ (emit _) =>
      apply appends_emit; first [exact I | reflexivity | solve [auto]]
  | |- appends _ (match ?x with _ => _ end) => destruct x
  | |- appends _ _ => solve [auto with appends]
  end.

Ltac appends_auto := repeat appends_step.

Section LogOfResource.

Context {W : Type} (config : Config W).

Lemma appends_SetId (P : Event -> Prop) (v : string) :
  P (EvSetId v) -> appends P (@SetId W v).
Proof.
  intros H. unfold SetId. apply appends_bind; [apply appends_modifyD|].
  intros _. now apply appends_emit.
Qed.

Lemma appends_asString (P : Event -> Prop) (v : value) :
  appends P (@asString W v).
Proof. unfold asString. appends_auto. Qed.

Lemma appends_asBool (P : Event -> Prop) (v : value) :
  appends P (@asBool W v).
Proof. unfold asBool. appends_auto. Qed.

Lemma appends_getParentResourceId (P : Event -> Prop) (p : Project) :
  appends P (@getParentResourceId W p).
Proof.
  unfold getParentResourceId, GetOk, parseFolderId.
  appends_auto; apply appends_asString.
Qed.

End LogOfResource.

Section LogOfOperations.

Context {W : Type} (config : Config W) (P : Event -> Prop).

Hypothesis P_Get : forall pid, P (EvProjectsGet pid).
Hypothesis P_GetBillingInfo : forall n, P (EvGetBillingInfo n).
Hypothesis P_SetId : forall v, P (EvSetId v).
Hypothesis P_Sleep : forall n, P (EvSleep n).

Lemma appends_Read : appends P (resourceGoogleProjectRead config).
Proof.
  unfold resourceGoogleProjectRead, handleNotFoundError, Id, Set_.
  appends_auto; apply appends_SetId; auto.
Qed.

Lemma appends_billingPoll (budget : nat) (name : string) :
  appends P (billingPoll config budget name).
Proof.
  induction budget as [|budget IH]; cbn [billingPoll]; [apply appends_ret|].
  unfold Get. appends_auto;
    first [apply appends_Read | apply appends_asString | exact IH].
Qed.

End LogOfOperations.

(** ** Read *)

Section ReadClaims.

Context {W : Type} (config : Config W).

Lemma readFields_billing (pid : string) (p : Project) (d : ResourceData) :
  RD.Get (readFields pid p d) "billing_account" = RD.Get d "billing_account".
Proof.
  unfold readFields.
  destruct (p_Parent p) as [parent|];
    [destruct (String.eqb (ri_Type parent) "organization");
     [|destruct (String.eqb (ri_Type parent) "folder")]|];
    now rewrite !RDFacts.Get_Set_ne by discriminate.
Qed.

(** [Read] up to the answer of the billing service, for an active
    project. *)
Lemma Read_active (d : ResourceData) (w w1 w2 : W) (log : list Event)
      (p : Project) (r : reply ProjectBillingInfo) :
  Projects_Get config (rd_id d) w = (Resp p, w1) ->
  p_LifecycleState p = "ACTIVE" ->
  Projects_GetBillingInfo config (prefixedProject (rd_id d)) w1 = (r, w2) ->
  resourceGoogleProjectRead config (mkState d w log) =
  let s := mkState (readFields (rd_id d) p d) w2
             (log ++ [EvProjectsGet (rd_id d);
                      EvGetBillingInfo (prefixedProject (rd_id d))]) in
  match r with
  | Err err =>
      (Fail (Errorf "Error reading billing account for project %q: %v"
                    [ArgString (prefixedProject (rd_id d)); ArgError err]), s)
  | Resp ba =>
      if Strings.neqb (ba_BillingAccountName ba) ""
      then
        let _ba := Strings.TrimPrefix (ba_BillingAccountName ba)
                                      "billingAccounts/" in
        if String.eqb (ba_BillingAccountName ba) _ba
        then (Fail (Errorf "Error parsing billing account for project %q. Expected value to begin with 'billingAccounts/' but got %s"
                           [ArgString (prefixedProject (rd_id d));
                            ArgString (ba_BillingAccountName ba)]), s)
        else (Ok tt, mkState (RD.Set_ "billing_account" (VString _ba) (st_d s))
                             (st_w s) (st_log s))
      else (Ok tt, s)
  end.
Proof.
  intros Hget Hactive Hbill.
  unfold resourceGoogleProjectRead. run. answer Hget.
  rewrite Hactive. cbn [Strings.neqb String.eqb Ascii.eqb Bool.eqb negb].
  unfold readFields.
  destruct (p_Parent p) as [parent|];
    [destruct (String.eqb (ri_Type parent) "organization");
     [|destruct (String.eqb (ri_Type parent) "folder")]|];
    run; rewrite ?RDFacts.id_Set; answer Hbill; rewrite <- ?app_assoc; cbn [app];
    (destruct r as [ba|err]; [|reflexivity]);
    (destruct (Strings.neqb (ba_BillingAccountName ba) ""); [|reflexivity]);
    cbv zeta;
    now destruct (String.eqb (ba_BillingAccountName ba) _).
Qed.

End ReadClaims.

Section ReadTheorems.

Context {W : Type} (config : Config W).

(** C5.  When the fetched project's lifecycle state is anything but
    "ACTIVE", Read clears the identifier and returns success; the record
    is otherwise left as it was and the fetch is the only remote call. *)
Theorem read_not_active_clears_id
        (d : ResourceData) (w w1 : W) (log : list Event) (p : Project) :
  Projects_Get config (rd_id d) w = (Resp p, w1) ->
  p_LifecycleState p <> "ACTIVE" ->
  resourceGoogleProjectRead config (mkState d w log) =
  (Ok tt, mkState (RD.SetId "" d) w1
                  (log ++ [EvProjectsGet (rd_id d); EvSetId ""])).
Proof.
  intros Hget Hstate.
  unfold resourceGoogleProjectRead. run. answer Hget.
  apply StringFacts.neqb_true in Hstate. rewrite Hstate. run. run_leaf.
  now rewrite <- app_assoc.
Qed.

(** C4.  For a non-empty remote billing-account name, Read stores the
    name with the "billingAccounts/" prefix stripped once; a name
    without the prefix makes Read return the parse error and leaves the
    billing field as it was. *)
Theorem read_strips_billing_prefix
        (d : ResourceData) (w w1 w2 : W) (log : list Event)
        (p : Project) (ba : ProjectBillingInfo) :
  Projects_Get config (rd_id d) w = (Resp p, w1) ->
  p_LifecycleState p = "ACTIVE" ->
  Projects_GetBillingInfo config (prefixedProject (rd_id d)) w1 = (Resp ba, w2) ->
  ba_BillingAccountName ba <> "" ->
  let result := resourceGoogleProjectRead config (mkState d w log) in
  (forall rest, ba_BillingAccountName ba = "billingAccounts/" +:+ rest ->
     fst result = Ok tt /\
     RD.Get (st_d (snd result)) "billing_account" = VString rest)
  /\
  ((forall rest, ba_BillingAccountName ba <> "billingAccounts/" +:+ rest) ->
     fst result =
       Fail (Errorf "Error parsing billing account for project %q. Expected value to begin with 'billingAccounts/' but got %s"
                    [ArgString (prefixedProject (rd_id d));
                     ArgString (ba_BillingAccountName ba)]) /\
     RD.Get (st_d (snd result)) "billing_account" = RD.Get d "billing_account").
Proof.
  intros Hget Hactive Hbill Hname result. subst result.
  rewrite (Read_active config d w w1 w2 log p (Resp ba) Hget Hactive Hbill).
  cbv zeta. apply StringFacts.neqb_true in Hname. rewrite Hname.
  split.
  - intros rest Hrest. rewrite Hrest, StringFacts.TrimPrefix_append.
    destruct (String.eqb_spec ("billingAccounts/" +:+ rest) rest) as [E|_].
    + now apply StringFacts.append_neq in E.
    + cbn [fst snd st_d]. split; [reflexivity|].
      now apply RDFacts.Get_Set_eq.
  - intros Hno. rewrite (StringFacts.TrimPrefix_without _ _ Hno).
    rewrite String.eqb_refl. cbn [fst snd st_d]. split; [reflexivity|].
    apply readFields_billing.
Qed.

(** C10.  When Read succeeds and the billing service reports an empty
    account name, the billing field of the record is left as it was. *)
Theorem read_unlinked_keeps_billing
        (d : ResourceData) (w w1 w2 : W) (log : list Event)
        (p : Project) (ba : ProjectBillingInfo) :
  Projects_Get config (rd_id d) w = (Resp p, w1) ->
  p_LifecycleState p = "ACTIVE" ->
  Projects_GetBillingInfo config (prefixedProject (rd_id d)) w1 = (Resp ba, w2) ->
  ba_BillingAccountName ba = "" ->
  let result := resourceGoogleProjectRead config (mkState d w log) in
  fst result = Ok tt /\
  RD.Get (st_d (snd result)) "billing_account" = RD.Get d "billing_account".
Proof.
  intros Hget Hactive Hbill Hname result. subst result.
  rewrite (Read_active config d w w1 w2 log p (Resp ba) Hget Hactive Hbill).
  cbv zeta. rewrite Hname. cbn [Strings.neqb String.eqb negb fst snd st_d].
  split; [reflexivity|]. apply readFields_billing.
Qed.

End ReadTheorems.

Lemma read_not_active_clears_id_witness :
  let d := Examples.stored in
  let config := Mock.config Examples.deleteRequested in
  rd_id (st_d (snd (resourceGoogleProjectRead config (mkState d tt [])))) = ""
  /\ fst (resourceGoogleProjectRead config (mkState d tt [])) = Ok tt
  /\ st_log (snd (resourceGoogleProjectRead config (mkState d tt [])))
     = [EvProjectsGet "p1"; EvSetId ""].
Proof.
  intros d config.
  pose proof (read_not_active_clears_id config d tt tt []
                (mkProject "2017-01-01T00:00:00Z" ∅ "DELETE_REQUESTED" "Test"
                           None "p1" 42)
                eq_refl ltac:(discriminate)) as H.
  rewrite H. repeat split.
Defined.

Lemma read_strips_billing_prefix_witness :
  let d := Examples.stored in
  let config := Mock.config (Examples.billed "billingAccounts/012345-567890-ABCDEF") in
  let result := resourceGoogleProjectRead config (mkState d tt []) in
  fst result = Ok tt /\
  RD.Get (st_d (snd result)) "billing_account" = VString "012345-567890-ABCDEF".
Proof.
  intros d config.
  exact (proj1 (read_strips_billing_prefix config d tt tt tt []
                  Mock.activeProject
                  (Mock.billingInfo "billingAccounts/012345-567890-ABCDEF")
                  eq_refl eq_refl eq_refl ltac:(discriminate))
               "012345-567890-ABCDEF" eq_refl).
Defined.

Lemma read_unlinked_keeps_billing_witness :
  let d := Examples.stored in
  let config := Mock.config (Examples.billed "") in
  let result := resourceGoogleProjectRead config (mkState d tt []) in
  RD.Get d "billing_account" = VString "OLD" /\
  fst result = Ok tt /\
  RD.Get (st_d (snd result)) "billing_account" = VString "OLD".
Proof.
  intros d config result.
  assert (Hold : RD.Get d "billing_account" = VString "OLD") by reflexivity.
  split; [exact Hold|].
  destruct (read_unlinked_keeps_billing config d tt tt tt []
              Mock.activeProject (Mock.billingInfo "")
              eq_refl eq_refl eq_refl eq_refl) as [Hok Hkeep].
  split; [exact Hok|]. exact (eq_trans Hkeep Hold).
Defined.

(** ** Parent resolution *)

Section ParentTheorems.

Context {W : Type}.

Lemma parseFolderId_run (folder : string) (s : state W) :
  parseFolderId (VString folder) s =
  (Ok (Strings.TrimPrefix folder "folders/"), s).
Proof.
  unfold parseFolderId, Strings.TrimPrefix. cbn [asString]. run.
  now destruct (Strings.HasPrefix folder "folders/").
Qed.

Lemma getParentResourceId_run (p : Project) (s : state W) :
  getParentResourceId p s =
  (Ok (withParent (folderFirstParent (st_d s) (p_Parent p)) p), s).
Proof.
  unfold getParentResourceId, folderFirstParent, isSet. run.
  rewrite !RDFacts.GetOk_fst.
  rewrite (RDFacts.Get_string (st_d s) "org_id") by reflexivity.
  destruct (snd (RD.GetOk (st_d s) "org_id")); cbn [asString]; run;
    rewrite !RDFacts.GetOk_fst;
    rewrite (RDFacts.Get_string (st_d s) "folder_id") by reflexivity;
    destruct (snd (RD.GetOk (st_d s) "folder_id")); run;
    rewrite ?(bind_ok _ _ _ _ _ (parseFolderId_run _ _));
    try reflexivity.
  now destruct p.
Qed.

(** C2 (as amended).  Parent resolution never fails, does not write the
    record and changes nothing of the project but its parent, which is
    resolved folder-first: whenever the folder field is set it is the
    folder, with type "folder" and the "folders/" prefix stripped, also
    when the organization field is set as well; it is the organization,
    with type "organization", when the organization field is set and the
    folder field is not; it is left as it was when neither is set. *)
Theorem parent_resolution_folder_first (p : Project) (s : state W) :
  let d := st_d s in
  exists p',
    getParentResourceId p s = (Ok p', s)
    /\ p' = withParent (p_Parent p') p
    /\ (isSet d "folder_id" = true ->
        p_Parent p'
        = Some (mkResourceId
                  (Strings.TrimPrefix (RD.GetString d "folder_id") "folders/")
                  "folder")
        /\ forall id, RD.GetString d "folder_id" = "folders/" +:+ id ->
                      p_Parent p' = Some (mkResourceId id "folder"))
    /\ (isSet d "folder_id" = false -> isSet d "org_id" = true ->
        p_Parent p' = Some (mkResourceId (RD.GetString d "org_id") "organization"))
    /\ (isSet d "folder_id" = false -> isSet d "org_id" = false ->
        p_Parent p' = p_Parent p).
Proof.
  intros d.
  exists (withParent (folderFirstParent d (p_Parent p)) p).
  split; [apply getParentResourceId_run|].
  split; [reflexivity|].
  unfold folderFirstParent. cbn [withParent p_Parent].
  split; [|split].
  - intros Hfolder. rewrite Hfolder. split; [reflexivity|].
    intros id Hid. now rewrite Hid, StringFacts.TrimPrefix_append.
  - intros Hfolder Horg. now rewrite Hfolder, Horg.
  - intros Hfolder Horg. now rewrite Hfolder, Horg.
Qed.

(** With the prefix or without it, a folder identifier resolves to the
    same parent id. *)
Lemma folder_prefix_normalized (id : string) :
  Strings.HasPrefix id "folders/" = false ->
  Strings.TrimPrefix ("folders/" +:+ id) "folders/" = id /\
  Strings.TrimPrefix id "folders/" = id.
Proof.
  intros H. split; [apply StringFacts.TrimPrefix_append|].
  unfold Strings.TrimPrefix. now rewrite H.
Qed.

End ParentTheorems.

Lemma parent_resolution_folder_first_witness :
  let d := Examples.bothParents in
  isSet d "org_id" = true /\ isSet d "folder_id" = true
  /\ exists p',
      getParentResourceId (mkProject "" ∅ "" "Test" None "p1" 0) (mkState d tt [])
      = (Ok p', mkState d tt [])
      /\ p_Parent p' = Some (mkResourceId "456" "folder").
Proof.
  intros d. split; [reflexivity|]. split; [reflexivity|].
  destruct (parent_resolution_folder_first
              (mkProject "" ∅ "" "Test" None "p1" 0) (mkState d tt []))
    as [p' [Hrun [_ [Hfolder _]]]].
  exists p'. split; [exact Hrun|].
  exact (proj2 (Hfolder eq_refl) "456" eq_refl).
Defined.

(** C2 (as stated) fails: with both fields set, the folder is chosen
    although the organization field is set. *)
Lemma parent_both_set_counterexample :
  ~ (forall (d : ResourceData) (p p' : Project) (s' : state unit) (r : ResourceId),
        isSet d "org_id" = true -> isSet d "folder_id" = true ->
        getParentResourceId p (mkState d tt []) = (Ok p', s') ->
        p_Parent p' = Some r ->
        ri_Type r = "folder" -> isSet d "org_id" = false).
Proof.
  intros H.
  specialize (H Examples.bothParents
                (mkProject "" ∅ "" "Test" None "p1" 0)
                (mkProject "" ∅ "" "Test" (Some (mkResourceId "456" "folder")) "p1" 0)
                (mkState Examples.bothParents tt [])
                (mkResourceId "456" "folder")
                eq_refl eq_refl eq_refl eq_refl eq_refl).
  discriminate H.
Qed.

(** ** Delete *)

Section DeleteTheorems.

Context {W : Type} (config : Config W).


End DeleteTheorems.

Example delete_skip_example :
  resourceGoogleProjectDelete (Mock.config Mock.script) (mkState Examples.skipping tt [])
  = (Ok tt, mkState (RD.SetId "" Examples.skipping) tt [EvSetId ""]).
Proof. reflexivity. Qed.

Example delete_example :
  resourceGoogleProjectDelete (Mock.config Mock.script) (mkState Examples.stored tt [])
  = (Ok tt, mkState (RD.SetId "" Examples.stored) tt
                    [EvProjectsDelete "p1"; EvSetId ""]).
Proof. reflexivity. Qed.

(** ** Billing linkage *)

Section BillingTheorems.

Context {W : Type} (config : Config W).

Lemma billingPayload_source (name : string) :
  (if Strings.neqb name ""
   then set_BillingAccountName ("billingAccounts/" +:+ name) emptyProjectBillingInfo
   else emptyProjectBillingInfo) = billingPayload name.
Proof.
  unfold billingPayload. destruct (decide (name = "")) as [->|Hne].
  - reflexivity.
  - apply StringFacts.neqb_true in Hne. now rewrite Hne.
Qed.

Lemma sends_billingPayload (name : string) :
  sendsBillingAccountName (billingPayload name) = negb (bool_decide (name = "")).
Proof.
  unfold billingPayload, sendsBillingAccountName.
  destruct (decide (name = "")) as [->|Hne]; [reflexivity|].
  rewrite (bool_decide_eq_false_2 _ Hne). reflexivity.
Qed.

(** C7.  The billing submission is the first thing the linkage
    operation does and the only billing update it makes.  Its payload is
    the empty [ProjectBillingInfo], which carries no account-name field,
    for an empty desired value, and otherwise the payload whose name is
    "billingAccounts/" followed by the value. *)
Theorem billing_payload (d : ResourceData) (w : W) (log : list Event) :
  let name := RD.GetString d "billing_account" in
  let result := updateProjectBillingAccount config (mkState d w log) in
  (exists rest,
      st_log (snd result) =
      log ++ EvUpdateBillingInfo (prefixedProject (rd_id d)) (billingPayload name)
          :: rest
      /\ Forall notUpdateBillingInfo rest)
  /\ sendsBillingAccountName (billingPayload name) = negb (bool_decide (name = ""))
  /\ (name = "" -> billingPayload name = emptyProjectBillingInfo)
  /\ (name <> "" ->
      billingPayload name
      = mkProjectBillingInfo ("billingAccounts/" +:+ name) false "" "" []).
Proof.
  intros name result. subst result. split; [|split; [|split]].
  - unfold updateProjectBillingAccount. run.
    rewrite (RDFacts.Get_string d "billing_account") by reflexivity.
    fold name. cbn [asString]. run. rewrite billingPayload_source.
    destruct (Projects_UpdateBillingInfo config (prefixedProject (rd_id d))
                (billingPayload name) w) as [[r|err] w1] eqn:E; answer E.
    + match goal with
      | |- context [snd (bind ?m ?k ?s)] =>
          assert (H : appends notUpdateBillingInfo (bind m k))
      end.
      { unfold Get. appends_auto;
          first [apply appends_billingPoll; intros; exact I
                | apply appends_asString]. }
      match goal with
      | |- context [snd (?m ?s)] => destruct (H s) as [l [El Fl]]
      end.
      exists l. rewrite El. cbn [st_log]. now rewrite <- app_assoc.
    + exists []. split; [|constructor].
      destruct err; run_leaf; reflexivity.
  - apply sends_billingPayload.
  - intros ->. reflexivity.
  - intros Hne. unfold billingPayload. now destruct (decide (name = "")).
Qed.

(** C3.  Once the submission has succeeded and the three re-reads have
    ended with the billing field still different from the desired value,
    the operation does not return: building the timeout error reads the
    key "billding_account", which the schema does not have, and the
    string assertion on the nil it gets panics.  The record is left in
    the mismatched state the poll ended in. *)
Theorem billing_timeout_panics
        (d : ResourceData) (w w1 : W) (log : list Event)
        (r : ProjectBillingInfo) (s3 : state W) :
  let name := RD.GetString d "billing_account" in
  Projects_UpdateBillingInfo config (prefixedProject (rd_id d))
                             (billingPayload name) w = (Resp r, w1) ->
  billingPoll config 3 name
    (mkState d w1
       (log ++ [EvUpdateBillingInfo (prefixedProject (rd_id d))
                                    (billingPayload name)]))
  = (Ok tt, s3) ->
  RD.GetString (st_d s3) "billing_account" <> name ->
  let result := updateProjectBillingAccount config (mkState d w log) in
  fst result = Panic "interface conversion: interface {} is nil, not string"
  /\ snd result = s3.
Proof.
  intros name Hsubmit Hpoll Hmismatch result. subst result.
  unfold updateProjectBillingAccount. run.
  rewrite (RDFacts.Get_string d "billing_account") by reflexivity.
  fold name. cbn [asString]. run. rewrite billingPayload_source.
  answer Hsubmit.
  rewrite (bind_ok _ _ _ _ _ Hpoll). run.
  rewrite (RDFacts.Get_string (st_d s3) "billing_account") by reflexivity.
  cbn [asString]. run.
  apply StringFacts.neqb_true in Hmismatch. rewrite Hmismatch. run.
  split; reflexivity.
Qed.

End BillingTheorems.

Lemma billing_timeout_panics_witness :
  let d := Examples.relink in
  let config := Mock.config (Examples.billed "billingAccounts/OLD") in
  let result := updateProjectBillingAccount config (mkState d tt []) in
  RD.GetString d "billing_account" = "NEW"
  /\ fst result = Panic "interface conversion: interface {} is nil, not string"
  /\ RD.Get (st_d (snd result)) "billing_account" = VString "OLD"
  /\ st_log (snd result)
     = [EvUpdateBillingInfo "projects/p1" (billingPayload "NEW");
        EvProjectsGet "p1"; EvGetBillingInfo "projects/p1"; EvSleep 3;
        EvProjectsGet "p1"; EvGetBillingInfo "projects/p1"; EvSleep 3;
        EvProjectsGet "p1"; EvGetBillingInfo "projects/p1"; EvSleep 3].
Proof.
  intros d config result.
  pose (s3 := snd (billingPoll config 3 "NEW"
                     (mkState d tt [EvUpdateBillingInfo "projects/p1"
                                                        (billingPayload "NEW")]))).
  pose proof (billing_timeout_panics config d tt tt []
                (Mock.billingInfo "billingAccounts/OLD") s3) as H.
  cbv zeta in H.
  assert (Hsubmit :
            Projects_UpdateBillingInfo config (prefixedProject (rd_id d))
              (billingPayload (RD.GetString d "billing_account")) tt
            = (Resp (Mock.billingInfo "billingAccounts/OLD"), tt))
    by reflexivity.
  assert (Hpoll :
            billingPoll config 3 (RD.GetString d "billing_account")
              (mkState d tt
                 ([] ++ [EvUpdateBillingInfo (prefixedProject (rd_id d))
                           (billingPayload (RD.GetString d "billing_account"))]))
            = (Ok tt, s3))
    by (vm_compute; reflexivity).
  assert (Hmismatch :
            RD.GetString (st_d s3) "billing_account"
            <> RD.GetString d "billing_account")
    by (vm_compute; discriminate).
  assert (Hname : RD.GetString d "billing_account" = "NEW")
    by (vm_compute; reflexivity).
  assert (Hfield : RD.Get (st_d s3) "billing_account" = VString "OLD")
    by (vm_compute; reflexivity).
  assert (Hlog : st_log s3
     = [EvUpdateBillingInfo "projects/p1" (billingPayload "NEW");
        EvProjectsGet "p1"; EvGetBillingInfo "projects/p1"; EvSleep 3;
        EvProjectsGet "p1"; EvGetBillingInfo "projects/p1"; EvSleep 3;
        EvProjectsGet "p1"; EvGetBillingInfo "projects/p1"; EvSleep 3])
    by (vm_compute; reflexivity).
  destruct (H Hsubmit Hpoll Hmismatch) as [Hpanic Hstate].
  pose proof (f_equal (fun s => RD.Get (st_d s) "billing_account") Hstate) as Hf.
  pose proof (f_equal (fun s => st_log s) Hstate) as Hl.
  cbv beta in Hf, Hl.
  exact (conj Hname (conj Hpanic (conj (eq_trans Hf Hfield) (eq_trans Hl Hlog)))).
Defined.

(** ** The log of the remaining operations *)

Section LogOfUpdates.

Context {W : Type} (config : Config W) (P : Event -> Prop).

Hypothesis P_Get : forall pid, P (EvProjectsGet pid).
Hypothesis P_GetBillingInfo : forall n, P (EvGetBillingInfo n).
Hypothesis P_SetId : forall v, P (EvSetId v).
Hypothesis P_Sleep : forall n, P (EvSleep n).
Hypothesis P_UpdateBillingInfo : forall n ba, P (EvUpdateBillingInfo n ba).
Hypothesis P_Update : forall pid p, P (EvProjectsUpdate pid p).

Lemma appends_updateProjectBillingAccount :
  appends P (updateProjectBillingAccount config).
Proof.
  unfold updateProjectBillingAccount, Id, Get, Set_.
  appends_auto;
    first [apply appends_asString | apply appends_billingPoll; auto].
Qed.

Lemma appends_updateProject (project_name : string) (p : Project) :
  appends P (updateProject config project_name p).
Proof. unfold updateProject. appends_auto. Qed.

End LogOfUpdates.

Section LogOfNetwork.

Context {W : Type} (config : Config W) (P : Event -> Prop).

Hypothesis P_List : forall project filter,
    P (EvFirewallsList (mkFirewallsListCall project filter "")).
Hypothesis P_FirewallsDelete : forall project name, P (EvFirewallsDelete project name).
Hypothesis P_Wait : forall op project activity,
    P (EvComputeSharedOperationWait op project activity).
Hypothesis P_DeleteNetwork : forall project name, P (EvDeleteComputeNetwork project name).

Lemma appends_deleteFirewalls (projectId : string) (items : list Firewall) :
  appends P (deleteFirewalls config projectId items).
Proof.
  induction items as [|firewall items IH]; cbn [deleteFirewalls];
    [apply appends_ret|].
  appends_auto.
Qed.

Lemma appends_paginateFirewalls (fuel : nat)
      (projectId networkName networkLink token : string) :
  appends P (paginateFirewalls config fuel projectId networkName networkLink token).
Proof.
  revert token. induction fuel as [|fuel IH]; intros token;
    cbn [paginateFirewalls]; [apply appends_outOfFuel|].
  appends_auto; try apply appends_deleteFirewalls.
Qed.

Lemma appends_forceDeleteComputeNetwork (fuel : nat) (projectId networkName : string) :
  appends P (forceDeleteComputeNetwork config fuel projectId networkName).
Proof.
  unfold forceDeleteComputeNetwork.
  appends_auto; try apply appends_paginateFirewalls.
Qed.

End LogOfNetwork.

(** ** Update *)

(** Takes the computation whose final log the goal speaks of, shows with
    [tac] that it only appends events satisfying [P], and names what it
    appends. *)
Ltac rest_appends P tac :=
  match goal with
  | |- context [snd (?m ?s)] =>
      let H := fresh "Happ" in
      assert (H : appends P m) by tac;
      let l := fresh "l" in
      let El := fresh "El" in
      let Fl := fresh "Fl" in
      destruct (H s) as [l [El Fl]]
  end.

Section UpdateTheorems.

Context {W : Type} (config : Config W).

(** C8.  Update begins by fetching the remote project.  When only the
    labels changed it then makes exactly one update call, for the fetched
    project with the record's labels put in: the payload has the new
    labels and the name and parent that were fetched. *)
Theorem update_labels_only (d : ResourceData) (w : W) (log : list Event) :
  (exists rest,
      st_log (snd (resourceGoogleProjectUpdate config (mkState d w log)))
      = log ++ EvProjectsGet (rd_id d) :: rest)
  /\
  (forall (p : Project) (w1 : W),
      Projects_Get config (rd_id d) w = (Resp p, w1) ->
      RD.HasChange d "name" = false ->
      RD.HasChange d "org_id" = false ->
      RD.HasChange d "folder_id" = false ->
      RD.HasChange d "billing_account" = false ->
      RD.HasChange d "labels" = true ->
      let payload := set_Labels (expandLabels d) p in
      st_log (snd (resourceGoogleProjectUpdate config (mkState d w log)))
      = log ++ [EvProjectsGet (rd_id d);
                EvProjectsUpdate (p_ProjectId p) payload]
      /\ p_Labels payload = expandLabels d
      /\ p_Name payload = p_Name p
      /\ p_Parent payload = p_Parent p).
Proof.
  split.
  - unfold resourceGoogleProjectUpdate. run.
    rewrite (RDFacts.Get_string d "name") by reflexivity.
    cbn [asString]. run.
    destruct (Projects_Get config (rd_id d) w) as [[p|err] w1] eqn:E;
      erewrite bind_call by (cbn [st_w]; exact E); cbv beta iota.
    + rest_appends anyEvent
        ltac:(unfold HasChange; appends_auto;
              first [apply appends_updateProject; intros; exact I
                    | apply appends_getParentResourceId
                    | apply appends_updateProjectBillingAccount; intros; exact I]).
      exists l. rewrite El. cbn [st_log]. now rewrite <- app_assoc.
    + exists [].
      destruct err as [code msg| |]; [destruct (code =? StatusNotFound)%Z| |];
        reflexivity.
  - intros p w1 Hget Hname Horg Hfolder Hbilling Hlabels payload.
    repeat split.
    unfold resourceGoogleProjectUpdate. run.
    rewrite (RDFacts.Get_string d "name") by reflexivity.
    cbn [asString]. run. answer Hget.
    change (RD.HasChange (RD.Partial true d)) with (RD.HasChange d).
    rewrite Hname. run.
    change (RD.HasChange (RD.Partial true d)) with (RD.HasChange d).
    rewrite Horg. run.
    change (RD.HasChange (RD.Partial true d)) with (RD.HasChange d).
    rewrite Hfolder. run.
    change (RD.HasChange (RD.Partial true d)) with (RD.HasChange d).
    rewrite Hbilling. run.
    change (RD.HasChange (RD.Partial true d)) with (RD.HasChange d).
    rewrite Hlabels. run.
    change (expandLabels (RD.Partial true d)) with (expandLabels d).
    unfold updateProject. run.
    match goal with
    | |- context [bind (call _ ?h) _ (mkState _ ?w0 _)] =>
        destruct (h w0) as [[p'|err] w2] eqn:E
    end; answer E; run_leaf; now rewrite <- app_assoc.
Qed.

End UpdateTheorems.

Lemma update_labels_only_witness :
  let d := Examples.relabel in
  let config := Mock.config Mock.script in
  expandLabels d = {[ "env" := "prod" ]}
  /\ st_log (snd (resourceGoogleProjectUpdate config (mkState d tt [])))
     = [EvProjectsGet "p1";
        EvProjectsUpdate "p1" (set_Labels {[ "env" := "prod" ]} Mock.activeProject)].
Proof.
  intros d config.
  assert (Hlabels : expandLabels d = {[ "env" := "prod" ]})
    by (vm_compute; reflexivity).
  split; [exact Hlabels|].
  destruct (proj2 (update_labels_only config d tt []) Mock.activeProject tt
              eq_refl
              ltac:(vm_compute; reflexivity) ltac:(vm_compute; reflexivity)
              ltac:(vm_compute; reflexivity) ltac:(vm_compute; reflexivity)
              ltac:(vm_compute; reflexivity)) as [Hlog _].
  cbn [app] in Hlog.
  exact (eq_trans Hlog
           (f_equal (fun l => [EvProjectsGet "p1";
                               EvProjectsUpdate "p1" (set_Labels l Mock.activeProject)])
                    Hlabels)).
Defined.

(** ** Create *)

Section CreateTheorems.

Context {W : Type} (config : Config W).


End CreateTheorems.

Example create_wait_fails_example :
  resourceGoogleProjectCreate (Mock.config Examples.waitFails) 0
                              (mkState Examples.bothParents tt [])
  = (Fail (OtherError "operation failed"),
     mkState (RD.SetId "" Examples.bothParents) tt
       [EvProjectsCreate
          (mkProject "" ∅ "" "Test" (Some (mkResourceId "456" "folder")) "p1" 0);
        EvSetId "p1";
        EvResourceManagerOperationWait (mkOperation "operations/cp.1")
                                       "project to create";
        EvSetId ""]).
Proof. vm_compute. reflexivity. Qed.

(** ** Cascading network deletion *)

Section NetworkTheorems.

Context {W : Type} (config : Config W).

(** Whatever the remote side answers, no listing request of the
    cascading deletion carries a page token. *)
Lemma forceDelete_sends_no_page_token
      (fuel : nat) (projectId networkName : string) (s : state W) :
  exists l,
    st_log (snd (forceDeleteComputeNetwork config fuel projectId networkName s))
    = st_log s ++ l
    /\ Forall withoutPageToken l.
Proof.
  apply (appends_forceDeleteComputeNetwork config withoutPageToken);
    intros; exact I || reflexivity.
Qed.


End NetworkTheorems.

(** Against the listing in two pages the loop never gets past the first
    page. *)
Lemma paginate_twoPages_out_of_fuel
      (fuel : nat) (networkName networkLink token : string) (s : state unit) :
  fst (paginateFirewalls (Mock.config Mock.script) fuel "p1" networkName
                         networkLink token s) = OutOfFuel.
Proof.
  revert token s. induction fuel as [|fuel IH]; intros token s; [reflexivity|].
  cbn [paginateFirewalls].
  erewrite bind_call by reflexivity.
  cbn [Mock.twoPages Mock.script Mock.on_List lc_pageToken String.eqb Ascii.eqb
       Bool.eqb fl_Items fl_NextPageToken deleteFirewalls fw_Name].
  run. erewrite bind_call by reflexivity.
  run. erewrite bind_call by reflexivity.
  run. cbn [Strings.neqb String.eqb Ascii.eqb Bool.eqb negb].
  apply IH.
Qed.

(** C1 (the code falls short of it).  The listing of [Mock.twoPages]
    answers the first request with the token "t1"; the requests that
    follow carry no token, the same first page is served again, and the
    loop does not end for any bound on its iterations. *)
Theorem pagination_token_not_followed (fuel : nat) :
  let config := Mock.config Mock.script in
  let first := mkFirewallsListCall
                 "p1"
                 "network eq https://www.googleapis.com/compute/v1/projects/p1/global/networks/default"
                 "" in
  let result := forceDeleteComputeNetwork config fuel "p1" "default"
                                          (mkState Examples.stored tt []) in
  Mock.twoPages first
  = Resp (mkFirewallList [mkFirewall "allow-icmp" "default"] "t1")
  /\ fst result = OutOfFuel
  /\ Forall withoutPageToken (st_log (snd result))
  /\ st_log (snd (forceDeleteComputeNetwork config 2 "p1" "default"
                                            (mkState Examples.stored tt [])))
     = [EvFirewallsList first;
        EvFirewallsDelete "p1" "allow-icmp";
        EvComputeSharedOperationWait (mkOperation "operation-1") "p1"
                                     "Deleting Firewall";
        EvFirewallsList first;
        EvFirewallsDelete "p1" "allow-icmp";
        EvComputeSharedOperationWait (mkOperation "operation-1") "p1"
                                     "Deleting Firewall"].
Proof.
  intros config first result. split; [reflexivity|]. split; [|split].
  - subst result. unfold forceDeleteComputeNetwork, bind.
    pose proof (paginate_twoPages_out_of_fuel fuel "default"
                  ("https://www.googleapis.com/compute/v1/projects/" +:+ "p1"
                   +:+ "/global/networks/" +:+ "default") ""
                  (mkState Examples.stored tt [])) as H.
    fold config in H.
    destruct (paginateFirewalls config fuel "p1" "default" _ "" _)
      as [[[]|e|msg|] s1]; cbn [fst] in H; try discriminate H.
    reflexivity.
  - subst result.
    destruct (forceDelete_sends_no_page_token config fuel "p1" "default"
                (mkState Examples.stored tt [])) as [l [El Fl]].
    rewrite El. exact Fl.
  - vm_compute. reflexivity.
Qed.

(** * Further properties *)

(** ** Invariants along a run *)

Section MaintainsFacts.

Context {W : Type} (I : ResourceData -> Prop) (P : Event -> Prop).

Lemma maintains_ret {A} (a : A) : maintains I P (@ret W A a).
Proof. intros s HI. exists []. cbn. rewrite app_nil_r. auto. Qed.

Lemma maintains_fail {A} (e : error) : maintains I P (@fail W A e).
Proof. intros s HI. exists []. cbn. rewrite app_nil_r. auto. Qed.

Lemma maintains_panic {A} (msg : string) : maintains I P (@panic W A msg).
Proof. intros s HI. exists []. cbn. rewrite app_nil_r. auto. Qed.

Lemma maintains_outOfFuel {A} : maintains I P (@outOfFuel W A).
Proof. intros s HI. exists []. cbn. rewrite app_nil_r. auto. Qed.

Lemma maintains_getD : maintains I P (@getD W).
Proof. intros s HI. exists []. cbn. rewrite app_nil_r. auto. Qed.

Lemma maintains_modifyD (f : ResourceData -> ResourceData) :
  (forall d, I d -> I (f d)) -> maintains I P (@modifyD W f).
Proof. intros Hf s HI. exists []. cbn. rewrite app_nil_r. auto. Qed.

Lemma maintains_emit (e : Event) : P e -> maintains I P (@emit W e).
Proof. intros He s HI. exists [e]. cbn. auto. Qed.

Lemma maintains_call {A} (e : Event) (h : remote W A) :
  P e -> maintains I P (call e h).
Proof.
  intros He s HI. exists [e]. unfold call.
  destruct (h (st_w s)) as [r w']. cbn. auto.
Qed.

Lemma maintains_bind {A B} (m : M W A) (k : A -> M W B) :
  maintains I P m -> (forall a, maintains I P (k a)) -> maintains I P (bind m k).
Proof.
  intros Hm Hk s HI. unfold bind.
  destruct (Hm s HI) as [l1 [E1 [F1 I1]]].
  destruct (m s) as [[a| e | msg |] s1]; cbn [snd] in E1, I1.
  - destruct (Hk a s1 I1) as [l2 [E2 [F2 I2]]].
    exists (l1 ++ l2). rewrite E2, E1, app_assoc.
    split; [reflexivity|]. split; [now apply Forall_app|exact I2].
  - exists l1. auto.
  - exists l1. auto.
  - exists l1. auto.
Qed.

Lemma maintains_onError {A} (m : M W A) (f : error -> error) :
  maintains I P m -> maintains I P (onError m f).
Proof.
  intros Hm s HI. unfold onError. destruct (Hm s HI) as [l [E [F I1]]].
  destruct (m s) as [[a| e | msg |] s1]; exists l; auto.
Qed.

(** A continuation that depends on what [Get] reads may use the
    invariant of the record it reads from. *)
Lemma maintains_Get_bind {B} (key : string) (k : value -> M W B) :
  (forall d, I d -> maintains I P (k (RD.Get d key))) ->
  maintains I P (bind (Get key) k).
Proof. intros H s HI. exact (H (st_d s) HI s HI). Qed.

Lemma maintains_GetOk_bind {B} (key : string) (k : value * bool -> M W B) :
  (forall d, I d -> maintains I P (k (RD.GetOk d key))) ->
  maintains I P (bind (GetOk key) k).
Proof. intros H s HI. exact (H (st_d s) HI s HI). Qed.

Lemma maintains_asString (v : value) : maintains I P (@asString W v).
Proof.
  destruct v; cbn [asString];
    first [apply maintains_ret | apply maintains_panic].
Qed.

Lemma maintains_asBool (v : value) : maintains I P (@asBool W v).
Proof.
  destruct v; cbn [asBool];
    first [apply maintains_ret | apply maintains_panic].
Qed.

End MaintainsFacts.

Create HintDb maintains.

#[local] Hint Resolve maintains_ret maintains_fail maintains_panic
  maintains_outOfFuel maintains_getD maintains_asString maintains_asBool
  : maintains.

(** Walks down a computation as [appends_step] does; [event] closes the
    obligations on events and [frame] those on writes of the record. *)
Ltac maintains_step event frame :=
  match goal with
  | |- maintains _ _ (bind _ _) => apply maintains_bind; [|intros ?]
  | |- maintains _ _ (onError _ _) => apply maintains_onError
  | |- maintains _ _ (call _ _) => apply maintains_call; event
  | |- maintains _ _ (emit _) => apply maintains_emit; event
  | |- maintains _ _ (modifyD _) => apply maintains_modifyD; frame
  | |- maintains _ _ (match ?x with _ => _ end) => destruct x
  | |- maintains _ _ _ => solve [auto with maintains]
  end.

Ltac maintains_auto event frame := repeat maintains_step event frame.

(** ** Counting events *)

Section BoundedFacts.

Context {W : Type} (f : Event -> bool).

Lemma countEvents_app (l1 l2 : list Event) :
  countEvents f (l1 ++ l2) = countEvents f l1 + countEvents f l2.
Proof. unfold countEvents. now rewrite List.filter_app, length_app. Qed.

Lemma bounded_weaken {A} (n n' : nat) (m : M W A) :
  n <= n' -> bounded f n m -> bounded f n' m.
Proof.
  intros Hle Hm s. destruct (Hm s) as [l [E C]]. exists l. split; [exact E|lia].
Qed.

Lemma bounded_ret {A} (a : A) : bounded f 0 (@ret W A a).
Proof. intros s. exists []. cbn. rewrite app_nil_r. auto. Qed.

Lemma bounded_fail {A} (e : error) : bounded f 0 (@fail W A e).
Proof. intros s. exists []. cbn. rewrite app_nil_r. auto. Qed.

Lemma bounded_panic {A} (msg : string) : bounded f 0 (@panic W A msg).
Proof. intros s. exists []. cbn. rewrite app_nil_r. auto. Qed.

Lemma bounded_getD : bounded f 0 (@getD W).
Proof. intros s. exists []. cbn. rewrite app_nil_r. auto. Qed.

Lemma bounded_modifyD (g : ResourceData -> ResourceData) :
  bounded f 0 (@modifyD W g).
Proof. intros s. exists []. cbn. rewrite app_nil_r. auto. Qed.

Lemma bounded_emit (e : Event) :
  bounded f (if f e then 1 else 0) (@emit W e).
Proof.
  intros s. exists [e]. split; [reflexivity|].
  unfold countEvents. cbn [List.filter]. destruct (f e); cbn; lia.
Qed.

Lemma bounded_call {A} (e : Event) (h : remote W A) :
  bounded f (if f e then 1 else 0) (call e h).
Proof.
  intros s. unfold call. destruct (h (st_w s)) as [r w']. cbn [snd st_log].
  exact (bounded_emit e s).
Qed.

Lemma bounded_bind {A B} (n1 n2 : nat) (m : M W A) (k : A -> M W B) :
  bounded f n1 m -> (forall a, bounded f n2 (k a)) ->
  bounded f (n1 + n2) (bind m k).
Proof.
  intros Hm Hk s. unfold bind.
  destruct (Hm s) as [l1 [E1 C1]].
  destruct (m s) as [[a| e | msg |] s1]; cbn [snd] in E1.
  - destruct (Hk a s1) as [l2 [E2 C2]].
    exists (l1 ++ l2). rewrite E2, E1, app_assoc, countEvents_app.
    split; [reflexivity|lia].
  - exists l1. split; [exact E1|lia].
  - exists l1. split; [exact E1|lia].
  - exists l1. split; [exact E1|lia].
Qed.

Lemma bounded_asString (v : value) : bounded f 0 (@asString W v).
Proof.
  destruct v; cbn [asString]; first [apply bounded_ret | apply bounded_panic].
Qed.

End BoundedFacts.

(** ** Read, field by field *)

Lemma Get_Set_same (k : string) (t : ValueType) (v : value) (d : ResourceData) :
  schemaType Schema k = Some t -> hasType t v = true ->
  RD.Get (RD.Set_ k v d) k = v.
Proof.
  intros Hk Hv. unfold RD.Set_. rewrite Hk, Hv.
  unfold RD.Get, RD.readSet, RD.typed. cbn [rd_set].
  now rewrite lookup_insert_eq, Hk, Hv.
Qed.

(** Rewrites a read of a key through the writes of [readFields]. *)
Ltac through_sets :=
  repeat first
    [ rewrite RDFacts.Get_Set_ne by discriminate
    | erewrite Get_Set_same by reflexivity ].

Section ReadFields.

Context {W : Type} (config : Config W).

Lemma readFields_id (pid : string) (p : Project) (d : ResourceData) :
  rd_id (readFields pid p d) = rd_id d.
Proof.
  unfold readFields.
  destruct (p_Parent p) as [parent|];
    [destruct (String.eqb (ri_Type parent) "organization");
     [|destruct (String.eqb (ri_Type parent) "folder")]|];
    now rewrite !RDFacts.id_Set.
Qed.

(** After [Read] of an active project every field but the billing account
    is as [readFields] leaves it, whatever the billing service answers. *)
Lemma Read_active_frame (d : ResourceData) (w w1 w2 : W) (log : list Event)
      (p : Project) (r : reply ProjectBillingInfo) (k : string) :
  Projects_Get config (rd_id d) w = (Resp p, w1) ->
  p_LifecycleState p = "ACTIVE" ->
  Projects_GetBillingInfo config (prefixedProject (rd_id d)) w1 = (r, w2) ->
  k <> "billing_account" ->
  RD.Get (st_d (snd (resourceGoogleProjectRead config (mkState d w log)))) k
  = RD.Get (readFields (rd_id d) p d) k
  /\ rd_id (st_d (snd (resourceGoogleProjectRead config (mkState d w log))))
     = rd_id d.
Proof.
  intros Hget Hactive Hbill Hk.
  rewrite (Read_active config d w w1 w2 log p r Hget Hactive Hbill). cbv zeta.
  destruct r as [ba|err]; [|cbn [snd st_d]; now rewrite readFields_id].
  destruct (Strings.neqb (ba_BillingAccountName ba) "");
    [|cbn [snd st_d]; now rewrite readFields_id].
  destruct (String.eqb (ba_BillingAccountName ba) _); cbn [snd st_d];
    [now rewrite readFields_id|].
  rewrite RDFacts.Get_Set_ne by congruence.
  now rewrite RDFacts.id_Set, readFields_id.
Qed.

(** X1.  Read of an active project copies the identifier into
    "project_id", the project number as a decimal string into "number",
    and the remote name and labels into "name" and "labels"; the
    identifier itself stays.  This holds whatever the billing service
    answers afterwards, an error included. *)
Theorem read_copies_fields
        (d : ResourceData) (w w1 w2 : W) (log : list Event)
        (p : Project) (r : reply ProjectBillingInfo) :
  Projects_Get config (rd_id d) w = (Resp p, w1) ->
  p_LifecycleState p = "ACTIVE" ->
  Projects_GetBillingInfo config (prefixedProject (rd_id d)) w1 = (r, w2) ->
  let d' := st_d (snd (resourceGoogleProjectRead config (mkState d w log))) in
  RD.Get d' "project_id" = VString (rd_id d)
  /\ RD.Get d' "number" = VString (pretty (p_ProjectNumber p))
  /\ RD.Get d' "name" = VString (p_Name p)
  /\ RD.Get d' "labels" = VMap (p_Labels p)
  /\ rd_id d' = rd_id d.
Proof.
  intros Hget Hactive Hbill d'. subst d'.
  assert (F : forall k v,
             k <> "billing_account" ->
             RD.Get (readFields (rd_id d) p d) k = v ->
             RD.Get (st_d (snd (resourceGoogleProjectRead config (mkState d w log)))) k
             = v)
    by (intros k v Hk E;
        exact (eq_trans (proj1 (Read_active_frame d w w1 w2 log p r k
                                  Hget Hactive Hbill Hk)) E)).
  repeat split;
    try (apply F; [discriminate|]; unfold readFields;
         destruct (p_Parent p) as [parent|];
         [destruct (String.eqb (ri_Type parent) "organization");
          [|destruct (String.eqb (ri_Type parent) "folder")]|];
         through_sets; reflexivity).
  exact (proj2 (Read_active_frame d w w1 w2 log p r "name"
                  Hget Hactive Hbill ltac:(discriminate))).
Qed.

(** X2.  Read maps the remote parent by its type tag: an "organization"
    parent goes to "org_id" and empties "folder_id"; a "folder" parent
    goes to "folder_id" and empties "org_id". *)
Theorem read_maps_parent
        (d : ResourceData) (w w1 w2 : W) (log : list Event)
        (p : Project) (r : reply ProjectBillingInfo) (parent : ResourceId) :
  Projects_Get config (rd_id d) w = (Resp p, w1) ->
  p_LifecycleState p = "ACTIVE" ->
  Projects_GetBillingInfo config (prefixedProject (rd_id d)) w1 = (r, w2) ->
  p_Parent p = Some parent ->
  let d' := st_d (snd (resourceGoogleProjectRead config (mkState d w log))) in
  (ri_Type parent = "organization" ->
   RD.Get d' "org_id" = VString (ri_Id parent)
   /\ RD.Get d' "folder_id" = VString "")
  /\ (ri_Type parent = "folder" ->
      RD.Get d' "folder_id" = VString (ri_Id parent)
      /\ RD.Get d' "org_id" = VString "").
Proof.
  intros Hget Hactive Hbill Hparent d'. subst d'.
  split; intros Htype;
    rewrite (proj1 (Read_active_frame d w w1 w2 log p r "org_id"
                      Hget Hactive Hbill ltac:(discriminate)));
    rewrite (proj1 (Read_active_frame d w w1 w2 log p r "folder_id"
                      Hget Hactive Hbill ltac:(discriminate)));
    unfold readFields; rewrite Hparent, Htype;
    cbn [String.eqb Ascii.eqb Bool.eqb];
    split; through_sets; reflexivity.
Qed.

(** X3.  A project without parent, or with a parent of any other type,
    leaves both parent fields of the record as they were. *)
Theorem read_other_parent_untouched
        (d : ResourceData) (w w1 w2 : W) (log : list Event)
        (p : Project) (r : reply ProjectBillingInfo) :
  Projects_Get config (rd_id d) w = (Resp p, w1) ->
  p_LifecycleState p = "ACTIVE" ->
  Projects_GetBillingInfo config (prefixedProject (rd_id d)) w1 = (r, w2) ->
  (forall parent, p_Parent p = Some parent ->
                  ri_Type parent <> "organization" /\ ri_Type parent <> "folder") ->
  let d' := st_d (snd (resourceGoogleProjectRead config (mkState d w log))) in
  RD.Get d' "org_id" = RD.Get d "org_id"
  /\ RD.Get d' "folder_id" = RD.Get d "folder_id".
Proof.
  intros Hget Hactive Hbill Hother d'. subst d'.
  rewrite (proj1 (Read_active_frame d w w1 w2 log p r "org_id"
                    Hget Hactive Hbill ltac:(discriminate))).
  rewrite (proj1 (Read_active_frame d w w1 w2 log p r "folder_id"
                    Hget Hactive Hbill ltac:(discriminate))).
  unfold readFields. destruct (p_Parent p) as [parent|].
  - destruct (Hother parent eq_refl) as [Horg Hfolder].
    apply String.eqb_neq in Horg, Hfolder. rewrite Horg, Hfolder.
    split; through_sets; reflexivity.
  - split; through_sets; reflexivity.
Qed.

(** X4.  When the billing lookup fails, Read returns the error wrapped as
    a billing read error; by then it has written the project's fields
    into the record, and it makes no further call. *)
Theorem read_billing_lookup_fails
        (d : ResourceData) (w w1 w2 : W) (log : list Event)
        (p : Project) (err : error) :
  Projects_Get config (rd_id d) w = (Resp p, w1) ->
  p_LifecycleState p = "ACTIVE" ->
  Projects_GetBillingInfo config (prefixedProject (rd_id d)) w1 = (Err err, w2) ->
  resourceGoogleProjectRead config (mkState d w log)
  = (Fail (Errorf "Error reading billing account for project %q: %v"
                  [ArgString (prefixedProject (rd_id d)); ArgError err]),
     mkState (readFields (rd_id d) p d) w2
             (log ++ [EvProjectsGet (rd_id d);
                      EvGetBillingInfo (prefixedProject (rd_id d))])).
Proof.
  intros Hget Hactive Hbill.
  now rewrite (Read_active config d w w1 w2 log p (Err err) Hget Hactive Hbill).
Qed.

End ReadFields.

Lemma read_copies_fields_witness :
  let d := Examples.stored in
  let config := Mock.config (Examples.billed "") in
  let d' := st_d (snd (resourceGoogleProjectRead config (mkState d tt []))) in
  RD.Get d' "project_id" = VString "p1"
  /\ RD.Get d' "number" = VString "42"
  /\ RD.Get d' "name" = VString "Test"
  /\ RD.Get d' "labels" = VMap ∅
  /\ rd_id d' = "p1".
Proof.
  intros d config.
  destruct (read_copies_fields config d tt tt tt [] Mock.activeProject
              (Resp (Mock.billingInfo "")) eq_refl eq_refl eq_refl)
    as [H1 [H2 [H3 [H4 H5]]]].
  assert (E : VString (pretty (p_ProjectNumber Mock.activeProject)) = VString "42")
    by (vm_compute; reflexivity).
  exact (conj H1 (conj (eq_trans H2 E) (conj H3 (conj H4 H5)))).
Defined.

Lemma read_maps_parent_witness :
  let d := Examples.stored in
  let config := Mock.config (Cases.serving Cases.inFolder) in
  let d' := st_d (snd (resourceGoogleProjectRead config (mkState d tt []))) in
  RD.Get d' "folder_id" = VString "456" /\ RD.Get d' "org_id" = VString "".
Proof.
  intros d config.
  exact (proj2 (read_maps_parent config d tt tt tt [] Cases.inFolder
                  (Resp (Mock.billingInfo "")) (mkResourceId "456" "folder")
                  eq_refl eq_refl eq_refl eq_refl)
               eq_refl).
Defined.

Lemma read_other_parent_untouched_witness :
  let d := Examples.relabel in
  let config := Mock.config (Cases.serving Cases.orphan) in
  let d' := st_d (snd (resourceGoogleProjectRead config (mkState d tt []))) in
  RD.Get d "org_id" = VString "123"
  /\ RD.Get d' "org_id" = RD.Get d "org_id"
  /\ RD.Get d' "folder_id" = RD.Get d "folder_id".
Proof.
  intros d config.
  split; [vm_compute; reflexivity|].
  apply (read_other_parent_untouched config d tt tt tt [] Cases.orphan
           (Resp (Mock.billingInfo "")) eq_refl eq_refl eq_refl).
  intros parent Hparent. discriminate Hparent.
Defined.

Lemma read_billing_lookup_fails_witness :
  let d := Examples.stored in
  let err := GoogleApiError 403 "billing API disabled" in
  let config := Mock.config (Cases.billingDown err) in
  resourceGoogleProjectRead config (mkState d tt [])
  = (Fail (Errorf "Error reading billing account for project %q: %v"
                  [ArgString (prefixedProject (rd_id d)); ArgError err]),
     mkState (readFields (rd_id d) Mock.activeProject d) tt
             ([] ++ [EvProjectsGet (rd_id d);
                     EvGetBillingInfo (prefixedProject (rd_id d))])).
Proof.
  intros d err config.
  exact (read_billing_lookup_fails config d tt tt tt [] Mock.activeProject err
           eq_refl eq_refl eq_refl).
Defined.

(** ** What Read and the billing step keep *)

Section MaintainedByRead.

Context {W : Type} (config : Config W).
Context (I : ResourceData -> Prop) (P : Event -> Prop).

Hypothesis I_Set : forall k v d,
    k <> "auto_create_network" -> k <> "skip_delete" ->
    I d -> I (RD.Set_ k v d).
Hypothesis I_SetId : forall d, I d -> I (RD.SetId "" d).
Hypothesis P_Get : forall pid, P (EvProjectsGet pid).
Hypothesis P_GetBillingInfo : forall n, P (EvGetBillingInfo n).
Hypothesis P_SetId : forall v, P (EvSetId v).
Hypothesis P_Sleep : forall n, P (EvSleep n).
Hypothesis P_UpdateBillingInfo : forall n ba, P (EvUpdateBillingInfo n ba).

Ltac event := solve [auto].
Ltac frame :=
  solve [ intros ? ?; apply I_Set; [discriminate|discriminate|assumption]
        | intros ? ?; apply I_SetId; assumption ].

Lemma maintains_Read : maintains I P (resourceGoogleProjectRead config).
Proof.
  unfold resourceGoogleProjectRead, handleNotFoundError, Id, Set_, SetId.
  maintains_auto event frame.
Qed.

Lemma maintains_billingPoll (budget : nat) (name : string) :
  maintains I P (billingPoll config budget name).
Proof.
  induction budget as [|budget IH]; cbn [billingPoll]; [apply maintains_ret|].
  unfold Get. maintains_auto event frame; try apply maintains_Read.
Qed.

Lemma maintains_updateProjectBillingAccount :
  maintains I P (updateProjectBillingAccount config).
Proof.
  unfold updateProjectBillingAccount, Id, Get, Set_.
  maintains_auto event frame; try apply maintains_billingPoll.
Qed.

End MaintainedByRead.

Section KeptByRead.

Context {W : Type} (config : Config W).

Lemma kept_Set (d0 : ResourceData) (k : string) (v : value) (d : ResourceData) :
  k <> "auto_create_network" -> k <> "skip_delete" ->
  kept d0 d -> kept d0 (RD.Set_ k v d).
Proof.
  intros Hk1 Hk2 [Hc [Ha [Hs Hi]]]. unfold kept.
  rewrite !RDFacts.Get_Set_ne by assumption. rewrite RDFacts.id_Set.
  split; [|auto]. intros k'. now rewrite RDFacts.HasChange_Set.
Qed.

Lemma kept_SetId (d0 d : ResourceData) : kept d0 d -> kept d0 (RD.SetId "" d).
Proof. intros [Hc [Ha [Hs Hi]]]. unfold kept. cbn [RD.SetId rd_id]. auto. Qed.

Lemma kept_refl (d0 : ResourceData) : kept d0 d0.
Proof. unfold kept. auto. Qed.

(** X5.  Whatever the remote side answers, Read leaves the change
    tracking of every field as it was, never writes the
    "auto_create_network" and "skip_delete" flags, and either keeps the
    identifier or clears it. *)
Theorem read_keeps_tracking_and_flags (s : state W) :
  let d := st_d s in
  let d' := st_d (snd (resourceGoogleProjectRead config s)) in
  (forall k, RD.HasChange d' k = RD.HasChange d k)
  /\ RD.Get d' "auto_create_network" = RD.Get d "auto_create_network"
  /\ RD.Get d' "skip_delete" = RD.Get d "skip_delete"
  /\ (rd_id d' = rd_id d \/ rd_id d' = "").
Proof.
  intros d d'.
  destruct (maintains_Read config (kept d) anyEvent
              (kept_Set d) (kept_SetId d)
              (fun _ => I) (fun _ => I) (fun _ => I) s (kept_refl d))
    as [l [_ [_ H]]].
  exact H.
Qed.

(** X6.  The same holds for the billing linkage operation as a whole,
    re-reads included, on success and on every failure. *)
Theorem billing_keeps_tracking_and_flags (s : state W) :
  let d := st_d s in
  let d' := st_d (snd (updateProjectBillingAccount config s)) in
  (forall k, RD.HasChange d' k = RD.HasChange d k)
  /\ RD.Get d' "auto_create_network" = RD.Get d "auto_create_network"
  /\ RD.Get d' "skip_delete" = RD.Get d "skip_delete"
  /\ (rd_id d' = rd_id d \/ rd_id d' = "").
Proof.
  intros d d'.
  destruct (maintains_updateProjectBillingAccount config (kept d) anyEvent
              (kept_Set d) (kept_SetId d)
              (fun _ => I) (fun _ => I) (fun _ => I) (fun _ => I)
              (fun _ _ => I) s (kept_refl d))
    as [l [_ [_ H]]].
  exact H.
Qed.

End KeptByRead.

(** ** Read, then parent resolution *)

Lemma isSet_string (d : ResourceData) (k v : string) :
  schemaType Schema k = Some TypeString ->
  RD.Get d k = VString v ->
  isSet d k = negb (bool_decide (v = "")) /\ RD.GetString d k = v.
Proof.
  intros Hk Hv. unfold isSet, RD.GetOk, RD.GetString. cbn [snd].
  rewrite Hk, Hv. cbn [zeroValue]. split; [|reflexivity]. f_equal.
  destruct (decide (v = "")) as [->|Hne].
  - now rewrite !bool_decide_eq_true_2.
  - rewrite !bool_decide_eq_false_2; [reflexivity|assumption|congruence].
Qed.

Section ReadThenParent.

Context {W : Type} (config : Config W).

Lemma readFields_parent_fields (pid : string) (p : Project) (d : ResourceData)
      (parent : ResourceId) :
  p_Parent p = Some parent ->
  (ri_Type parent = "organization" ->
   RD.Get (readFields pid p d) "org_id" = VString (ri_Id parent)
   /\ RD.Get (readFields pid p d) "folder_id" = VString "")
  /\ (ri_Type parent = "folder" ->
      RD.Get (readFields pid p d) "folder_id" = VString (ri_Id parent)
      /\ RD.Get (readFields pid p d) "org_id" = VString "").
Proof.
  intros Hparent. unfold readFields. rewrite Hparent.
  split; intros Htype; rewrite Htype; cbn [String.eqb Ascii.eqb Bool.eqb];
    split; through_sets; reflexivity.
Qed.

(** X7.  Read and parent resolution are inverse to each other: after Read
    has stored an organization or folder parent with a non-empty id (a
    folder id that does not itself start with "folders/"), resolving the
    parent from the record gives back the remote parent. *)
Theorem read_then_resolve_parent
        (d : ResourceData) (w w1 w2 : W) (log : list Event)
        (p : Project) (r : reply ProjectBillingInfo) (parent : ResourceId) :
  Projects_Get config (rd_id d) w = (Resp p, w1) ->
  p_LifecycleState p = "ACTIVE" ->
  Projects_GetBillingInfo config (prefixedProject (rd_id d)) w1 = (r, w2) ->
  p_Parent p = Some parent ->
  ri_Id parent <> "" ->
  ri_Type parent = "organization"
  \/ (ri_Type parent = "folder"
      /\ Strings.HasPrefix (ri_Id parent) "folders/" = false) ->
  let s' := snd (resourceGoogleProjectRead config (mkState d w log)) in
  forall q : Project,
    getParentResourceId q s' = (Ok (withParent (Some parent) q), s').
Proof.
  intros Hget Hactive Hbill Hparent Hid Htype s' q.
  rewrite getParentResourceId_run. f_equal. f_equal.
  pose proof (proj1 (Read_active_frame config d w w1 w2 log p r "org_id"
                       Hget Hactive Hbill ltac:(discriminate))) as Horg.
  pose proof (proj1 (Read_active_frame config d w w1 w2 log p r "folder_id"
                       Hget Hactive Hbill ltac:(discriminate))) as Hfolder.
  fold s' in Horg, Hfolder.
  destruct (readFields_parent_fields (rd_id d) p d parent Hparent) as [Ho Hf].
  unfold folderFirstParent.
  destruct Htype as [Htype|[Htype Hprefix]].
  - destruct (Ho Htype) as [E1 E2]. rewrite E1 in Horg. rewrite E2 in Hfolder.
    destruct (isSet_string (st_d s') "org_id" _ eq_refl Horg) as [S1 G1].
    destruct (isSet_string (st_d s') "folder_id" _ eq_refl Hfolder) as [S2 G2].
    rewrite S1, S2, G1. cbn [bool_decide decide_rel negb].
    rewrite bool_decide_eq_true_2 by reflexivity.
    rewrite bool_decide_eq_false_2 by assumption. cbn [negb].
    destruct parent as [id ty]. cbn in Htype. now subst ty.
  - destruct (Hf Htype) as [E1 E2]. rewrite E1 in Hfolder. rewrite E2 in Horg.
    destruct (isSet_string (st_d s') "folder_id" _ eq_refl Hfolder) as [S2 G2].
    rewrite S2, G2. rewrite bool_decide_eq_false_2 by assumption. cbn [negb].
    unfold Strings.TrimPrefix. rewrite Hprefix.
    destruct parent as [id ty]. cbn in Htype. now subst ty.
Qed.

End ReadThenParent.

Lemma read_then_resolve_parent_witness :
  let d := Examples.stored in
  let config := Mock.config (Cases.serving Cases.inFolder) in
  let s' := snd (resourceGoogleProjectRead config (mkState d tt [])) in
  getParentResourceId Cases.orphan s'
  = (Ok (withParent (Some (mkResourceId "456" "folder")) Cases.orphan), s').
Proof.
  intros d config.
  exact (read_then_resolve_parent config d tt tt tt [] Cases.inFolder
           (Resp (Mock.billingInfo "")) (mkResourceId "456" "folder")
           eq_refl eq_refl eq_refl eq_refl ltac:(discriminate)
           (or_intror (conj eq_refl eq_refl))
           Cases.orphan).
Defined.

(** ** Billing linkage: failure, convergence, retry budget *)

(** Closes a goal [bounded f 0 m] for a computation none of whose events
    is counted by [f]. *)
Ltac bounded_zero f :=
  repeat match goal with
         | |- bounded _ 0 (bind _ _) => apply (bounded_bind f 0 0); [|intros ?]
         | |- bounded _ 0 (call ?e ?h) => exact (bounded_call f e h)
         | |- bounded _ 0 (emit ?e) => exact (bounded_emit f e)
         | |- bounded _ 0 (modifyD _) => apply bounded_modifyD
         | |- bounded _ 0 getD => apply bounded_getD
         | |- bounded _ 0 (ret _) => apply bounded_ret
         | |- bounded _ 0 (fail _) => apply bounded_fail
         | |- bounded _ 0 (panic _) => apply bounded_panic
         | |- bounded _ 0 (asString _) => apply bounded_asString
         | |- bounded _ 0 (match ?x with _ => _ end) => destruct x
         end.

Section BillingMore.

Context {W : Type} (config : Config W).

(** A successful [Read] of an active project, by the billing name the
    remote side reports. *)
Lemma Read_ok (d : ResourceData) (w w1 w2 : W) (log : list Event)
      (p : Project) (ba : ProjectBillingInfo) :
  Projects_Get config (rd_id d) w = (Resp p, w1) ->
  p_LifecycleState p = "ACTIVE" ->
  Projects_GetBillingInfo config (prefixedProject (rd_id d)) w1 = (Resp ba, w2) ->
  let log' := log ++ [EvProjectsGet (rd_id d);
                      EvGetBillingInfo (prefixedProject (rd_id d))] in
  (ba_BillingAccountName ba = "" ->
   resourceGoogleProjectRead config (mkState d w log)
   = (Ok tt, mkState (readFields (rd_id d) p d) w2 log'))
  /\ (forall rest,
         ba_BillingAccountName ba = "billingAccounts/" +:+ rest ->
         resourceGoogleProjectRead config (mkState d w log)
         = (Ok tt, mkState (RD.Set_ "billing_account" (VString rest)
                                    (readFields (rd_id d) p d)) w2 log')).
Proof.
  intros Hget Hactive Hbill log'.
  rewrite (Read_active config d w w1 w2 log p (Resp ba) Hget Hactive Hbill).
  cbv zeta. split.
  - intros ->. reflexivity.
  - intros rest Hrest. rewrite Hrest, StringFacts.TrimPrefix_append.
    assert (Hne : Strings.neqb ("billingAccounts/" +:+ rest) "" = true)
      by reflexivity.
    rewrite Hne.
    destruct (String.eqb_spec ("billingAccounts/" +:+ rest) rest) as [E|_];
      [now apply StringFacts.append_neq in E|reflexivity].
Qed.

(** X8.  When the billing submission fails, the operation resets the
    record's billing field to empty, returns the error with the account
    and the project, and does not re-read. *)
Theorem billing_submission_fails
        (d : ResourceData) (w w1 : W) (log : list Event) (err : error) :
  let name := RD.GetString d "billing_account" in
  Projects_UpdateBillingInfo config (prefixedProject (rd_id d))
                             (billingPayload name) w = (Err err, w1) ->
  let result := updateProjectBillingAccount config (mkState d w log) in
  result
  = (Fail (Errorf "Error setting billing account %q for project %q: %v"
                  [ArgString name; ArgString (prefixedProject (rd_id d));
                   ArgError err]),
     mkState (RD.Set_ "billing_account" (VString "") d) w1
             (log ++ [EvUpdateBillingInfo (prefixedProject (rd_id d))
                                          (billingPayload name)]))
  /\ RD.Get (st_d (snd result)) "billing_account" = VString "".
Proof.
  intros name Hsubmit result. subst result.
  unfold updateProjectBillingAccount. run.
  rewrite (RDFacts.Get_string d "billing_account") by reflexivity.
  fold name. cbn [asString]. run. rewrite billingPayload_source.
  answer Hsubmit.
  destruct err; run_leaf;
    (split; [reflexivity|cbn [snd st_d]; now apply RDFacts.Get_Set_eq]).
Qed.

(** X9.  What the operation submits is what Read strips: when the remote
    side reports the submitted account name back, the first re-read
    matches, and the operation succeeds after one fetch and one billing
    lookup, without sleeping. *)
Theorem billing_converges_on_echo
        (d : ResourceData) (w w1 w2 w3 : W) (log : list Event)
        (r ba : ProjectBillingInfo) (p : Project) :
  let name := RD.GetString d "billing_account" in
  let pid := rd_id d in
  Projects_UpdateBillingInfo config (prefixedProject pid)
                             (billingPayload name) w = (Resp r, w1) ->
  Projects_Get config pid w1 = (Resp p, w2) ->
  p_LifecycleState p = "ACTIVE" ->
  Projects_GetBillingInfo config (prefixedProject pid) w2 = (Resp ba, w3) ->
  ba_BillingAccountName ba = "billingAccounts/" +:+ name ->
  let result := updateProjectBillingAccount config (mkState d w log) in
  fst result = Ok tt
  /\ st_log (snd result)
     = log ++ [EvUpdateBillingInfo (prefixedProject pid) (billingPayload name);
               EvProjectsGet pid; EvGetBillingInfo (prefixedProject pid)]
  /\ RD.Get (st_d (snd result)) "billing_account" = VString name.
Proof.
  intros name pid Hsubmit Hget Hactive Hbill Hecho result. subst result pid.
  unfold updateProjectBillingAccount. run.
  rewrite (RDFacts.Get_string d "billing_account") by reflexivity.
  fold name. cbn [asString]. run. rewrite billingPayload_source.
  answer Hsubmit. cbn [billingPoll]. run.
  rewrite (bind_ok _ _ _ _ _
             (proj2 (Read_ok d w1 w2 w3 _ p ba Hget Hactive Hbill) name Hecho)).
  run. rewrite !RDFacts.Get_Set_eq by reflexivity.
  cbn [asString]. run. rewrite String.eqb_refl. run.
  rewrite !RDFacts.Get_Set_eq by reflexivity.
  cbn [asString]. run.
  unfold Strings.neqb. rewrite String.eqb_refl. cbn [negb]. run_leaf.
  rewrite <- app_assoc. cbn [app snd fst st_log st_d].
  repeat split. now apply RDFacts.Get_Set_eq.
Qed.

(** X10.  When the remote side reports no billing account at all, Read
    leaves the billing field at the desired value, so the first re-read
    already matches: the operation succeeds after one re-read for every
    desired value, the unlinking empty one included. *)
Theorem billing_succeeds_when_remote_unlinked
        (d : ResourceData) (w w1 w2 w3 : W) (log : list Event)
        (r ba : ProjectBillingInfo) (p : Project) :
  let name := RD.GetString d "billing_account" in
  let pid := rd_id d in
  Projects_UpdateBillingInfo config (prefixedProject pid)
                             (billingPayload name) w = (Resp r, w1) ->
  Projects_Get config pid w1 = (Resp p, w2) ->
  p_LifecycleState p = "ACTIVE" ->
  Projects_GetBillingInfo config (prefixedProject pid) w2 = (Resp ba, w3) ->
  ba_BillingAccountName ba = "" ->
  let result := updateProjectBillingAccount config (mkState d w log) in
  fst result = Ok tt
  /\ st_log (snd result)
     = log ++ [EvUpdateBillingInfo (prefixedProject pid) (billingPayload name);
               EvProjectsGet pid; EvGetBillingInfo (prefixedProject pid)]
  /\ RD.Get (st_d (snd result)) "billing_account" = VString name.
Proof.
  intros name pid Hsubmit Hget Hactive Hbill Hnone result. subst result pid.
  assert (Hfield : RD.Get (readFields (rd_id d) p d) "billing_account"
                   = VString name)
    by (rewrite readFields_billing;
        now apply (RDFacts.Get_string d "billing_account")).
  unfold updateProjectBillingAccount. run.
  rewrite (RDFacts.Get_string d "billing_account") by reflexivity.
  fold name. cbn [asString]. run. rewrite billingPayload_source.
  answer Hsubmit. cbn [billingPoll]. run.
  rewrite (bind_ok _ _ _ _ _
             (proj1 (Read_ok d w1 w2 w3 _ p ba Hget Hactive Hbill) Hnone)).
  run. rewrite !Hfield.
  cbn [asString]. run. rewrite String.eqb_refl. run.
  rewrite !Hfield.
  cbn [asString]. run.
  unfold Strings.neqb. rewrite String.eqb_refl. cbn [negb]. run_leaf.
  rewrite <- app_assoc. cbn [app snd fst st_log st_d].
  repeat split. exact Hfield.
Qed.

Lemma bounded_Read_fetch :
  bounded isProjectsGet 1 (resourceGoogleProjectRead config).
Proof.
  unfold resourceGoogleProjectRead, handleNotFoundError, Id, Set_, SetId.
  apply (bounded_bind isProjectsGet 0 1); [bounded_zero isProjectsGet|intros pid].
  apply (bounded_bind isProjectsGet 1 0);
    [exact (bounded_call isProjectsGet _ _)|intros r].
  bounded_zero isProjectsGet.
Qed.

Lemma bounded_Read_sleep :
  bounded isSleep 0 (resourceGoogleProjectRead config).
Proof.
  unfold resourceGoogleProjectRead, handleNotFoundError, Id, Set_, SetId.
  bounded_zero isSleep.
Qed.

Lemma bounded_billingPoll_fetch (budget : nat) (name : string) :
  bounded isProjectsGet budget (billingPoll config budget name).
Proof.
  induction budget as [|budget IH]; cbn [billingPoll]; [apply bounded_ret|].
  apply (bounded_bind isProjectsGet 1 budget); [apply bounded_Read_fetch|intros _].
  unfold Get.
  apply (bounded_bind isProjectsGet 0 budget); [bounded_zero isProjectsGet|intros v].
  apply (bounded_bind isProjectsGet 0 budget); [bounded_zero isProjectsGet|intros got].
  destruct (String.eqb got name).
  - apply (bounded_weaken isProjectsGet 0); [lia|apply bounded_ret].
  - apply (bounded_bind isProjectsGet 0 budget);
      [exact (bounded_emit isProjectsGet _)|intros _; exact IH].
Qed.

Lemma bounded_billingPoll_sleep (budget : nat) (name : string) :
  bounded isSleep budget (billingPoll config budget name).
Proof.
  induction budget as [|budget IH]; cbn [billingPoll]; [apply bounded_ret|].
  apply (bounded_bind isSleep 0 (S budget)); [apply bounded_Read_sleep|intros _].
  unfold Get.
  apply (bounded_bind isSleep 0 (S budget)); [bounded_zero isSleep|intros v].
  apply (bounded_bind isSleep 0 (S budget)); [bounded_zero isSleep|intros got].
  destruct (String.eqb got name).
  - apply (bounded_weaken isSleep 0); [lia|apply bounded_ret].
  - apply (bounded_bind isSleep 1 budget);
      [exact (bounded_emit isSleep _)|intros _; exact IH].
Qed.

(** X11.  Whatever the remote side answers, one run of the billing linkage
    operation fetches the project at most three times and sleeps at most
    three times. *)
Theorem billing_retry_budget (s : state W) :
  exists l,
    st_log (snd (updateProjectBillingAccount config s)) = st_log s ++ l
    /\ countEvents isProjectsGet l <= 3
    /\ countEvents isSleep l <= 3.
Proof.
  assert (Hg : bounded isProjectsGet 3 (updateProjectBillingAccount config)).
  { unfold updateProjectBillingAccount, Id, Get, Set_.
    apply (bounded_bind isProjectsGet 0 3); [bounded_zero isProjectsGet|intros pid].
    apply (bounded_bind isProjectsGet 0 3); [bounded_zero isProjectsGet|intros v].
    apply (bounded_bind isProjectsGet 0 3); [bounded_zero isProjectsGet|intros name].
    apply (bounded_bind isProjectsGet 0 3);
      [exact (bounded_call isProjectsGet _ _)|intros r].
    destruct r as [r|err].
    - apply (bounded_bind isProjectsGet 3 0);
        [apply bounded_billingPoll_fetch|intros _].
      bounded_zero isProjectsGet.
    - apply (bounded_weaken isProjectsGet 0); [lia|].
      bounded_zero isProjectsGet. }
  assert (Hs : bounded isSleep 3 (updateProjectBillingAccount config)).
  { unfold updateProjectBillingAccount, Id, Get, Set_.
    apply (bounded_bind isSleep 0 3); [bounded_zero isSleep|intros pid].
    apply (bounded_bind isSleep 0 3); [bounded_zero isSleep|intros v].
    apply (bounded_bind isSleep 0 3); [bounded_zero isSleep|intros name].
    apply (bounded_bind isSleep 0 3);
      [exact (bounded_call isSleep _ _)|intros r].
    destruct r as [r|err].
    - apply (bounded_bind isSleep 3 0);
        [apply bounded_billingPoll_sleep|intros _].
      bounded_zero isSleep.
    - apply (bounded_weaken isSleep 0); [lia|].
      bounded_zero isSleep. }
  destruct (Hg s) as [l [El Cl]]. destruct (Hs s) as [l' [El' Cl']].
  exists l. split; [exact El|]. split; [exact Cl|].
  rewrite El in El'. apply app_inv_head in El'. now subst l'.
Qed.

End BillingMore.

Lemma billing_submission_fails_witness :
  let d := Examples.relink in
  let err := GoogleApiError 403 "permission denied" in
  let config := Mock.config (Cases.billingDown err) in
  let result := updateProjectBillingAccount config (mkState d tt []) in
  RD.Get d "billing_account" = VString "NEW"
  /\ RD.Get (st_d (snd result)) "billing_account" = VString ""
  /\ st_log (snd result)
     = [EvUpdateBillingInfo "projects/p1" (billingPayload "NEW")].
Proof.
  intros d err config result.
  pose proof (billing_submission_fails config d tt tt [] err) as H.
  cbv zeta in H.
  destruct (H eq_refl) as [Hres Hfield].
  assert (Hold : RD.Get d "billing_account" = VString "NEW")
    by (vm_compute; reflexivity).
  assert (Hlog : [] ++ [EvUpdateBillingInfo (prefixedProject (rd_id d))
                          (billingPayload (RD.GetString d "billing_account"))]
                 = [EvUpdateBillingInfo "projects/p1" (billingPayload "NEW")])
    by (vm_compute; reflexivity).
  pose proof (f_equal (fun r => st_log (snd r)) Hres) as Hl.
  cbv beta in Hl. cbn [snd st_log] in Hl.
  exact (conj Hold (conj Hfield (eq_trans Hl Hlog))).
Defined.

Lemma billing_converges_on_echo_witness :
  let d := Examples.relink in
  let config := Mock.config (Examples.billed "billingAccounts/NEW") in
  let result := updateProjectBillingAccount config (mkState d tt []) in
  fst result = Ok tt
  /\ RD.Get (st_d (snd result)) "billing_account" = VString "NEW".
Proof.
  intros d config result.
  pose proof (billing_converges_on_echo config d tt tt tt tt []
                (Mock.billingInfo "billingAccounts/NEW")
                (Mock.billingInfo "billingAccounts/NEW")
                Mock.activeProject) as H.
  cbv zeta in H.
  assert (Hecho : ba_BillingAccountName (Mock.billingInfo "billingAccounts/NEW")
                  = "billingAccounts/" +:+ RD.GetString d "billing_account")
    by (vm_compute; reflexivity).
  destruct (H eq_refl eq_refl eq_refl eq_refl Hecho) as [Hok [_ Hfield]].
  assert (Hname : VString (RD.GetString d "billing_account") = VString "NEW")
    by (vm_compute; reflexivity).
  exact (conj Hok (eq_trans Hfield Hname)).
Defined.

Lemma billing_succeeds_when_remote_unlinked_witness :
  let d := Examples.relink in
  let config := Mock.config (Examples.billed "") in
  let result := updateProjectBillingAccount config (mkState d tt []) in
  fst result = Ok tt
  /\ RD.Get (st_d (snd result)) "billing_account" = VString "NEW".
Proof.
  intros d config result.
  pose proof (billing_succeeds_when_remote_unlinked config d tt tt tt tt []
                (Mock.billingInfo "") (Mock.billingInfo "")
                Mock.activeProject) as H.
  cbv zeta in H.
  destruct (H eq_refl eq_refl eq_refl eq_refl eq_refl) as [Hok [_ Hfield]].
  assert (Hname : VString (RD.GetString d "billing_account") = VString "NEW")
    by (vm_compute; reflexivity).
  exact (conj Hok (eq_trans Hfield Hname)).
Defined.

(** ** Update: failure, no change, composition *)

Section UpdateMore.

Context {W : Type} (config : Config W).

(** Runs [Update] up to the answer of the fetch. *)
Ltac update_start Hget :=
  unfold resourceGoogleProjectUpdate; run;
  rewrite (RDFacts.Get_string _ "name") by reflexivity;
  cbn [asString]; run; answer Hget.

(** Decides the next [HasChange] test of [Update] from a hypothesis. *)
Ltac changed H :=
  change (RD.HasChange (RD.Partial true ?d)) with (RD.HasChange d);
  rewrite H; run.

(** X12.  When the fetch fails, Update returns an error without touching
    the record and without any further call; a not-found answer is
    reported as the project not existing. *)
Theorem update_fetch_fails
        (d : ResourceData) (w w1 : W) (log : list Event) (err : error) :
  Projects_Get config (rd_id d) w = (Err err, w1) ->
  let result := resourceGoogleProjectUpdate config (mkState d w log) in
  snd result = mkState d w1 (log ++ [EvProjectsGet (rd_id d)])
  /\ (exists e, fst result = Fail e)
  /\ (forall msg, err = GoogleApiError StatusNotFound msg ->
                  fst result
                  = Fail (Errorf "Project %q does not exist."
                                 [ArgString (rd_id d)])).
Proof.
  intros Hget result. subst result. update_start Hget.
  split; [|split].
  - destruct err as [code msg| |]; [destruct (code =? StatusNotFound)%Z| |];
      reflexivity.
  - destruct err as [code msg| |]; [destruct (code =? StatusNotFound)%Z| |];
      eexists; reflexivity.
  - intros msg ->. reflexivity.
Qed.

(** X13.  With no field changed, Update makes no call beyond the fetch,
    succeeds, and leaves partial mode switched off. *)
Theorem update_without_changes
        (d : ResourceData) (w w1 : W) (log : list Event) (p : Project) :
  Projects_Get config (rd_id d) w = (Resp p, w1) ->
  RD.HasChange d "name" = false ->
  RD.HasChange d "org_id" = false ->
  RD.HasChange d "folder_id" = false ->
  RD.HasChange d "billing_account" = false ->
  RD.HasChange d "labels" = false ->
  resourceGoogleProjectUpdate config (mkState d w log)
  = (Ok tt, mkState (RD.Partial false (RD.Partial true d)) w1
                    (log ++ [EvProjectsGet (rd_id d)])).
Proof.
  intros Hget Hname Horg Hfolder Hbilling Hlabels. update_start Hget.
  changed Hname. changed Horg. changed Hfolder. changed Hbilling.
  changed Hlabels. now run_leaf.
Qed.

(** X14.  Each update call is built on the answer of the one before it:
    when the name and the labels both changed, the labels update carries
    the project that the name update returned, with the record's labels
    put in. *)
Theorem update_name_then_labels
        (d : ResourceData) (w w1 w2 : W) (log : list Event) (p p1 : Project) :
  let name := RD.GetString d "name" in
  Projects_Get config (rd_id d) w = (Resp p, w1) ->
  RD.HasChange d "name" = true ->
  RD.HasChange d "org_id" = false ->
  RD.HasChange d "folder_id" = false ->
  RD.HasChange d "billing_account" = false ->
  RD.HasChange d "labels" = true ->
  Projects_Update config (p_ProjectId p) (set_Name name p) w1 = (Resp p1, w2) ->
  st_log (snd (resourceGoogleProjectUpdate config (mkState d w log)))
  = log ++ [EvProjectsGet (rd_id d);
            EvProjectsUpdate (p_ProjectId p) (set_Name name p);
            EvProjectsUpdate (p_ProjectId p1) (set_Labels (expandLabels d) p1)].
Proof.
  intros name Hget Hname Horg Hfolder Hbilling Hlabels Hupdate.
  update_start Hget. fold name.
  changed Hname. unfold updateProject. run. answer Hupdate.
  change (RD.HasChange (RD.SetPartial "name" (RD.Partial true d)))
    with (RD.HasChange d).
  rewrite Horg. run.
  change (RD.HasChange (RD.SetPartial "name" (RD.Partial true d)))
    with (RD.HasChange d).
  rewrite Hfolder. run.
  change (RD.HasChange (RD.SetPartial "name" (RD.Partial true d)))
    with (RD.HasChange d).
  rewrite Hbilling. run.
  change (RD.HasChange (RD.SetPartial "name" (RD.Partial true d)))
    with (RD.HasChange d).
  rewrite Hlabels. run.
  change (expandLabels (RD.SetPartial "name" (RD.Partial true d)))
    with (expandLabels d).
  match goal with
  | |- context [bind (call _ ?h) _ (mkState _ ?w0 _)] =>
      destruct (h w0) as [[p'|err] w3] eqn:E
  end; answer E; run_leaf; cbn [snd st_log]; now rewrite <- !app_assoc.
Qed.

(** X15.  A failed update call aborts Update at once: when the name
    update fails, the error is returned, no later field is attempted
    whatever else changed, and the record stays in partial mode with no
    field marked as applied. *)
Theorem update_name_fails
        (d : ResourceData) (w w1 w2 : W) (log : list Event)
        (p : Project) (err : error) :
  let name := RD.GetString d "name" in
  Projects_Get config (rd_id d) w = (Resp p, w1) ->
  RD.HasChange d "name" = true ->
  Projects_Update config (p_ProjectId p) (set_Name name p) w1 = (Err err, w2) ->
  resourceGoogleProjectUpdate config (mkState d w log)
  = (Fail (Errorf "Error updating project %q: %s"
                  [ArgString name; ArgError err]),
     mkState (RD.Partial true d) w2
             (log ++ [EvProjectsGet (rd_id d);
                      EvProjectsUpdate (p_ProjectId p) (set_Name name p)])).
Proof.
  intros name Hget Hname Hupdate.
  update_start Hget. fold name.
  changed Hname. unfold updateProject. run. answer Hupdate.
  run_leaf. now rewrite <- !app_assoc.
Qed.

End UpdateMore.

(** ** Update: the billing step's re-read and the labels *)

Section UpdateBillingLabels.

Context {W : Type} (config : Config W).

Lemma HasChange_readFields (pid : string) (p : Project) (d : ResourceData)
      (k : string) :
  RD.HasChange (readFields pid p d) k = RD.HasChange d k.
Proof.
  unfold readFields.
  destruct (p_Parent p) as [parent|];
    [destruct (String.eqb (ri_Type parent) "organization");
     [|destruct (String.eqb (ri_Type parent) "folder")]|];
    now rewrite !RDFacts.HasChange_Set.
Qed.

Lemma expandLabels_readFields (pid : string) (p : Project) (d : ResourceData)
      (v : value) :
  expandLabels (RD.Set_ "billing_account" v (readFields pid p d)) = p_Labels p.
Proof.
  unfold expandLabels. rewrite RDFacts.Get_Set_ne by discriminate.
  unfold readFields.
  destruct (p_Parent p) as [parent|];
    [destruct (String.eqb (ri_Type parent) "organization");
     [|destruct (String.eqb (ri_Type parent) "folder")]|];
    through_sets; reflexivity.
Qed.

(** The whole run of the billing step when the remote side reports the
    submitted account back at the first re-read. *)
Lemma billing_echo_run
      (d : ResourceData) (w w1 w2 w3 : W) (log : list Event)
      (r ba : ProjectBillingInfo) (p : Project) :
  let name := RD.GetString d "billing_account" in
  let pid := rd_id d in
  Projects_UpdateBillingInfo config (prefixedProject pid)
                             (billingPayload name) w = (Resp r, w1) ->
  Projects_Get config pid w1 = (Resp p, w2) ->
  p_LifecycleState p = "ACTIVE" ->
  Projects_GetBillingInfo config (prefixedProject pid) w2 = (Resp ba, w3) ->
  ba_BillingAccountName ba = "billingAccounts/" +:+ name ->
  updateProjectBillingAccount config (mkState d w log)
  = (Ok tt,
     mkState (RD.Set_ "billing_account" (VString name) (readFields pid p d)) w3
             (log ++ [EvUpdateBillingInfo (prefixedProject pid) (billingPayload name);
                      EvProjectsGet pid; EvGetBillingInfo (prefixedProject pid)])).
Proof.
  intros name pid Hsubmit Hget Hactive Hbill Hecho. subst pid.
  unfold updateProjectBillingAccount. run.
  rewrite (RDFacts.Get_string d "billing_account") by reflexivity.
  fold name. cbn [asString]. run. rewrite billingPayload_source.
  answer Hsubmit. cbn [billingPoll]. run.
  rewrite (bind_ok _ _ _ _ _
             (proj2 (Read_ok config d w1 w2 w3 _ p ba Hget Hactive Hbill)
                    name Hecho)).
  run. rewrite !RDFacts.Get_Set_eq by reflexivity.
  cbn [asString]. run. rewrite String.eqb_refl. run.
  rewrite !RDFacts.Get_Set_eq by reflexivity.
  cbn [asString]. run.
  unfold Strings.neqb. rewrite String.eqb_refl. cbn [negb]. run_leaf.
  now rewrite <- app_assoc.
Qed.

(** X16.  The re-read of the billing step overwrites the record's labels
    with the remote ones before the labels update is built: when the
    billing account and the labels both changed and the billing step
    converged at its first re-read, the labels update that follows carries
    the labels of the project just re-read, not the planned ones. *)
Theorem update_billing_then_labels
        (d : ResourceData) (w w1 w2 w3 w4 : W) (log : list Event)
        (p p2 : Project) (r ba : ProjectBillingInfo) :
  let name := RD.GetString d "billing_account" in
  let pid := rd_id d in
  Projects_Get config pid w = (Resp p, w1) ->
  RD.HasChange d "name" = false ->
  RD.HasChange d "org_id" = false ->
  RD.HasChange d "folder_id" = false ->
  RD.HasChange d "billing_account" = true ->
  RD.HasChange d "labels" = true ->
  Projects_UpdateBillingInfo config (prefixedProject pid)
                             (billingPayload name) w1 = (Resp r, w2) ->
  Projects_Get config pid w2 = (Resp p2, w3) ->
  p_LifecycleState p2 = "ACTIVE" ->
  Projects_GetBillingInfo config (prefixedProject pid) w3 = (Resp ba, w4) ->
  ba_BillingAccountName ba = "billingAccounts/" +:+ name ->
  st_log (snd (resourceGoogleProjectUpdate config (mkState d w log)))
  = log ++ [EvProjectsGet pid;
            EvUpdateBillingInfo (prefixedProject pid) (billingPayload name);
            EvProjectsGet pid; EvGetBillingInfo (prefixedProject pid);
            EvProjectsUpdate (p_ProjectId p) (set_Labels (p_Labels p2) p)].
Proof.
  intros name pid Hget Hname Horg Hfolder Hbilling Hlabels
         Hsubmit Hreget Hactive Hbill Hecho. subst pid.
  unfold resourceGoogleProjectUpdate. run.
  rewrite (RDFacts.Get_string _ "name") by reflexivity.
  cbn [asString]. run. answer Hget.
  change (RD.HasChange (RD.Partial true d)) with (RD.HasChange d).
  rewrite Hname. run.
  change (RD.HasChange (RD.Partial true d)) with (RD.HasChange d).
  rewrite Horg. run.
  change (RD.HasChange (RD.Partial true d)) with (RD.HasChange d).
  rewrite Hfolder. run.
  change (RD.HasChange (RD.Partial true d)) with (RD.HasChange d).
  rewrite Hbilling. run.
  rewrite (bind_ok _ _ _ _ _
             (billing_echo_run (RD.Partial true d) w1 w2 w3 w4 _ r ba p2
                               Hsubmit Hreget Hactive Hbill Hecho)).
  run.
  rewrite RDFacts.HasChange_Set, HasChange_readFields.
  change (RD.HasChange (RD.Partial true d)) with (RD.HasChange d).
  rewrite Hlabels. run.
  rewrite expandLabels_readFields.
  unfold updateProject. run.
  match goal with
  | |- context [bind (call _ ?h) _ (mkState _ ?w0 _)] =>
      destruct (h w0) as [[p'|err] w5] eqn:E
  end; answer E; run_leaf; cbn [snd st_log]; now rewrite <- !app_assoc.
Qed.

End UpdateBillingLabels.

Lemma update_fetch_fails_witness :
  let d := Cases.unchanged in
  let config := Mock.config (Cases.failing (GoogleApiError 404 "not found")) in
  let result := resourceGoogleProjectUpdate config (mkState d tt []) in
  fst result = Fail (Errorf "Project %q does not exist." [ArgString "p1"])
  /\ snd result = mkState d tt [EvProjectsGet "p1"].
Proof.
  intros d config result.
  destruct (update_fetch_fails config d tt tt []
              (GoogleApiError 404 "not found") eq_refl)
    as [Hstate [_ Hnotfound]].
  exact (conj (Hnotfound "not found" eq_refl) Hstate).
Defined.

Lemma update_without_changes_witness :
  let d := Cases.unchanged in
  let config := Mock.config Mock.script in
  resourceGoogleProjectUpdate config (mkState d tt [])
  = (Ok tt, mkState (RD.Partial false (RD.Partial true d)) tt
                    ([] ++ [EvProjectsGet (rd_id d)])).
Proof.
  intros d config.
  exact (update_without_changes config d tt tt [] Mock.activeProject
           eq_refl
           ltac:(vm_compute; reflexivity) ltac:(vm_compute; reflexivity)
           ltac:(vm_compute; reflexivity) ltac:(vm_compute; reflexivity)
           ltac:(vm_compute; reflexivity)).
Defined.

Lemma update_name_then_labels_witness :
  let d := Cases.renameRelabel in
  let config := Mock.config Cases.bumping in
  let renamed := set_Name "Renamed" Mock.activeProject in
  let answered :=
    mkProject "2017-01-01T00:00:00Z" ∅ "ACTIVE" "Renamed"
              (Some (mkResourceId "123" "organization")) "p1" 43 in
  st_log (snd (resourceGoogleProjectUpdate config (mkState d tt [])))
  = [EvProjectsGet "p1";
     EvProjectsUpdate "p1" renamed;
     EvProjectsUpdate "p1" (set_Labels {[ "env" := "prod" ]} answered)].
Proof.
  intros d config renamed answered.
  pose proof (update_name_then_labels config d tt tt tt [] Mock.activeProject
                answered) as H.
  cbv zeta in H.
  assert (Hupdate :
            Projects_Update config (p_ProjectId Mock.activeProject)
              (set_Name (RD.GetString d "name") Mock.activeProject) tt
            = (Resp answered, tt))
    by (vm_compute; reflexivity).
  specialize (H eq_refl
                ltac:(vm_compute; reflexivity) ltac:(vm_compute; reflexivity)
                ltac:(vm_compute; reflexivity) ltac:(vm_compute; reflexivity)
                ltac:(vm_compute; reflexivity) Hupdate).
  assert (Hlog :
            [] ++ [EvProjectsGet (rd_id d);
                   EvProjectsUpdate (p_ProjectId Mock.activeProject)
                     (set_Name (RD.GetString d "name") Mock.activeProject);
                   EvProjectsUpdate (p_ProjectId answered)
                     (set_Labels (expandLabels d) answered)]
            = [EvProjectsGet "p1";
               EvProjectsUpdate "p1" renamed;
               EvProjectsUpdate "p1" (set_Labels {[ "env" := "prod" ]} answered)])
    by (vm_compute; reflexivity).
  exact (eq_trans H Hlog).
Defined.

Lemma update_name_fails_witness :
  let d := Cases.renameRelabel in
  let err := GoogleApiError 400 "invalid display name" in
  let config := Mock.config (Cases.updateRefused err) in
  let result := resourceGoogleProjectUpdate config (mkState d tt []) in
  fst result
  = Fail (Errorf "Error updating project %q: %s"
                 [ArgString (RD.GetString d "name"); ArgError err])
  /\ st_log (snd result)
     = [] ++ [EvProjectsGet (rd_id d);
              EvProjectsUpdate (p_ProjectId Mock.activeProject)
                (set_Name (RD.GetString d "name") Mock.activeProject)]
  /\ rd_partial (st_d (snd result)) = true.
Proof.
  intros d err config result.
  pose proof (update_name_fails config d tt tt tt [] Mock.activeProject err) as H.
  cbv zeta in H.
  specialize (H eq_refl ltac:(vm_compute; reflexivity) eq_refl).
  pose proof (f_equal fst H) as H1.
  pose proof (f_equal (fun r => st_log (snd r)) H) as H2.
  pose proof (f_equal (fun r => rd_partial (st_d (snd r))) H) as H3.
  cbv beta in H2, H3. cbn [fst snd st_log st_d RD.Partial rd_partial] in H1, H2, H3.
  exact (conj H1 (conj H2 H3)).
Defined.

Lemma update_billing_then_labels_witness :
  let d := Cases.relinkRelabel in
  let config := Mock.config (Examples.billed "billingAccounts/NEW") in
  expandLabels d = {[ "env" := "prod" ]}
  /\ st_log (snd (resourceGoogleProjectUpdate config (mkState d tt [])))
     = [EvProjectsGet "p1";
        EvUpdateBillingInfo "projects/p1" (billingPayload "NEW");
        EvProjectsGet "p1"; EvGetBillingInfo "projects/p1";
        EvProjectsUpdate "p1" (set_Labels ∅ Mock.activeProject)].
Proof.
  intros d config.
  assert (Hplanned : expandLabels d = {[ "env" := "prod" ]})
    by (vm_compute; reflexivity).
  pose proof (update_billing_then_labels config d tt tt tt tt tt []
                Mock.activeProject Mock.activeProject
                (Mock.billingInfo "billingAccounts/NEW")
                (Mock.billingInfo "billingAccounts/NEW")) as H.
  cbv zeta in H.
  assert (Hecho : ba_BillingAccountName (Mock.billingInfo "billingAccounts/NEW")
                  = "billingAccounts/" +:+ RD.GetString d "billing_account")
    by (vm_compute; reflexivity).
  specialize (H eq_refl
                ltac:(vm_compute; reflexivity) ltac:(vm_compute; reflexivity)
                ltac:(vm_compute; reflexivity) ltac:(vm_compute; reflexivity)
                ltac:(vm_compute; reflexivity)
                eq_refl eq_refl eq_refl eq_refl Hecho).
  assert (Hlog :
            [] ++ [EvProjectsGet (rd_id d);
                   EvUpdateBillingInfo (prefixedProject (rd_id d))
                     (billingPayload (RD.GetString d "billing_account"));
                   EvProjectsGet (rd_id d);
                   EvGetBillingInfo (prefixedProject (rd_id d));
                   EvProjectsUpdate (p_ProjectId Mock.activeProject)
                     (set_Labels (p_Labels Mock.activeProject) Mock.activeProject)]
            = [EvProjectsGet "p1";
               EvUpdateBillingInfo "projects/p1" (billingPayload "NEW");
               EvProjectsGet "p1"; EvGetBillingInfo "projects/p1";
               EvProjectsUpdate "p1" (set_Labels ∅ Mock.activeProject)])
    by (vm_compute; reflexivity).
  exact (conj Hplanned (eq_trans H Hlog)).
Defined.

(** ** Create: the default network and the billing account *)

Lemma maintains_ret_bind {W A B} (I : ResourceData -> Prop) (P : Event -> Prop)
      (a : A) (k : A -> M W B) :
  maintains I P (k a) -> maintains I P (bind (ret a) k).
Proof. intros H s HI. exact (H s HI). Qed.

Section CreateMore.

Context {W : Type} (config : Config W).

Lemma autoOn_Set (k : string) (v : value) (d : ResourceData) :
  k <> "auto_create_network" -> k <> "skip_delete" ->
  autoOn d -> autoOn (RD.Set_ k v d).
Proof. intros Hk _ H. unfold autoOn. now rewrite RDFacts.Get_Set_ne. Qed.

Lemma maintains_getParentResourceId (I : ResourceData -> Prop)
      (P : Event -> Prop) (p : Project) :
  maintains I P (@getParentResourceId W p).
Proof.
  unfold getParentResourceId, GetOk, parseFolderId.
  maintains_auto idtac idtac.
Qed.

(** X17.  A project created with "auto_create_network" set keeps its
    default network: whatever the remote side answers, Create makes no
    call to enable the compute service, to list or delete firewall rules,
    or to delete a network. *)
Theorem create_with_network_makes_no_compute_call
        (fuel : nat) (s : state W) :
  RD.Get (st_d s) "auto_create_network" = VBool true ->
  exists l,
    st_log (snd (resourceGoogleProjectCreate config fuel s)) = st_log s ++ l
    /\ Forall notCompute l.
Proof.
  intros Hauto.
  assert (H : maintains autoOn notCompute (resourceGoogleProjectCreate config fuel)).
  { unfold resourceGoogleProjectCreate.
    repeat first
      [ match goal with
        | |- maintains _ _ (bind (Get "auto_create_network") _) =>
            apply maintains_Get_bind; intros d Hd; rewrite Hd;
            cbn [asBool]; apply maintains_ret_bind; cbn [negb];
            apply maintains_ret
        | |- maintains _ _ (bind (Get _) _) =>
            unfold Get at 1
        | |- maintains _ _ (bind (GetOk _) _) =>
            unfold GetOk at 1
        | |- maintains _ _ (SetId _) => unfold SetId
        | |- maintains _ _ (getParentResourceId _) =>
            apply maintains_getParentResourceId
        | |- maintains _ _ (updateProjectBillingAccount _) =>
            apply maintains_updateProjectBillingAccount;
            first [exact autoOn_Set | intros; exact I | intros ? Hd; exact Hd]
        | |- maintains _ _ (resourceGoogleProjectRead _) =>
            apply maintains_Read;
            first [exact autoOn_Set | intros; exact I | intros ? Hd; exact Hd]
        end
      | maintains_step ltac:(exact I) ltac:(intros ? Hd; exact Hd) ]. }
  destruct (H s Hauto) as [l [El [Fl _]]]. exists l. auto.
Qed.

(** X18.  A project created without a billing account is never linked:
    whatever the remote side answers, Create submits no billing update. *)
Theorem create_without_billing_makes_no_billing_update
        (fuel : nat) (d : ResourceData) (w : W) (log : list Event) :
  isSet d "billing_account" = false ->
  exists l,
    st_log (snd (resourceGoogleProjectCreate config fuel (mkState d w log)))
    = log ++ l
    /\ Forall notUpdateBillingInfo l.
Proof.
  intros Hbilling.
  unfold resourceGoogleProjectCreate. run.
  rewrite (RDFacts.Get_string d "project_id") by reflexivity.
  cbn [asString]. run.
  rewrite (RDFacts.Get_string d "name") by reflexivity.
  cbn [asString]. run.
  rewrite (bind_ok _ _ _ _ _ (getParentResourceId_run _ _)). run.
  match goal with
  | |- context [bind (call _ ?h) _ (mkState _ ?w0 _)] =>
      destruct (h w0) as [[op|err] w1] eqn:Ecreate
  end; answer Ecreate.
  2:{ eexists. split; [reflexivity|]. repeat constructor. }
  match goal with
  | |- context [bind (call _ ?h) _ (mkState _ ?w0 _)] =>
      destruct (h w0) as [[[]|waitErr] w2] eqn:Ewait
  end; answer Ewait.
  2:{ run_leaf. rewrite <- !app_assoc. eexists. split; [reflexivity|].
      repeat constructor. }
  change (snd (RD.GetOk (RD.SetId (RD.GetString d "project_id") d)
                        "billing_account"))
    with (isSet d "billing_account").
  rewrite Hbilling. run.
  rest_appends notUpdateBillingInfo
    ltac:(unfold Get; appends_auto;
          first [apply appends_Read; intros; exact I
                | apply appends_asBool
                | apply appends_forceDeleteComputeNetwork; intros; exact I]).
  eexists. rewrite El. cbn [st_log]. rewrite <- !app_assoc.
  split; [reflexivity|]. repeat constructor. exact Fl.
Qed.

End CreateMore.

Lemma create_with_network_makes_no_compute_call_witness :
  let d := Cases.plain in
  let config := Mock.config Mock.script in
  RD.Get d "auto_create_network" = VBool true
  /\ exists l,
      st_log (snd (resourceGoogleProjectCreate config 1 (mkState d tt [])))
      = [] ++ l
      /\ Forall notCompute l.
Proof.
  intros d config.
  assert (Hauto : RD.Get d "auto_create_network" = VBool true)
    by (vm_compute; reflexivity).
  split; [exact Hauto|].
  exact (create_with_network_makes_no_compute_call config 1 (mkState d tt [])
                                                   Hauto).
Defined.

Lemma create_without_billing_makes_no_billing_update_witness :
  let d := Cases.plain in
  let config := Mock.config (Examples.billed "billingAccounts/OLD") in
  exists l,
    st_log (snd (resourceGoogleProjectCreate config 1 (mkState d tt [])))
    = [] ++ l
    /\ Forall notUpdateBillingInfo l.
Proof.
  intros d config.
  exact (create_without_billing_makes_no_billing_update config 1 d tt []
           ltac:(vm_compute; reflexivity)).
Defined.

(** ** Cascading network deletion: order and failure *)

Section NetworkMore.

Context {W : Type} (config : Config W).

(** X19.  The firewall rules of a page are deleted in the order of the
    page, none skipped: the rules a run of the loop asks to delete are a
    prefix of the page's rules, and all of them when the loop succeeds. *)
Theorem firewalls_deleted_in_order
        (projectId : string) (items : list Firewall) (s : state W) :
  let result := deleteFirewalls config projectId items s in
  exists l,
    st_log (snd result) = st_log s ++ l
    /\ deletedFirewalls l `prefix_of` map fw_Name items
    /\ (fst result = Ok tt -> deletedFirewalls l = map fw_Name items).
Proof.
  revert s. induction items as [|firewall items IH]; intros s result;
    subst result.
  - exists []. cbn. rewrite app_nil_r. repeat split; reflexivity.
  - cbn [deleteFirewalls].
    destruct (Firewalls_Delete config projectId (fw_Name firewall) (st_w s))
      as [[op|err] w1] eqn:Edelete;
      erewrite bind_call by exact Edelete; cbv beta iota.
    + match goal with
      | |- context [bind (call _ ?h) _ (mkState _ ?w0 _)] =>
          destruct (h w0) as [[[]|err] w2] eqn:Ewait
      end; erewrite bind_call by (cbn [st_w]; exact Ewait);
        cbv beta iota; cbn [st_d st_w st_log].
      * match goal with
        | |- context [deleteFirewalls _ _ _ ?s1] =>
            destruct (IH s1) as [l [El [Pl Al]]]
        end.
        cbv zeta in El, Pl, Al. cbn [st_log] in El.
        exists (EvFirewallsDelete projectId (fw_Name firewall)
                :: EvComputeSharedOperationWait op projectId "Deleting Firewall"
                :: l).
        rewrite El. cbn [map].
        change (deletedFirewalls (_ :: _ :: l))
          with (fw_Name firewall :: deletedFirewalls l).
        split; [now rewrite <- !app_assoc|]. split.
        -- now apply prefix_cons.
        -- intros Hok. f_equal. now apply Al.
      * exists [EvFirewallsDelete projectId (fw_Name firewall);
                EvComputeSharedOperationWait op projectId "Deleting Firewall"].
        cbn [fail snd fst st_log]. rewrite <- !app_assoc.
        split; [reflexivity|]. split; [|discriminate].
        cbn [map]. apply (prefix_cons _ []), prefix_nil.
    + exists [EvFirewallsDelete projectId (fw_Name firewall)].
      cbn [fail snd fst st_log].
      split; [reflexivity|]. split; [|discriminate].
      cbn [map]. apply (prefix_cons _ []), prefix_nil.
Qed.


(** X21.  When the listing fails, the cascading deletion returns the
    listing error and deletes nothing, neither a rule nor the network. *)
Theorem listing_failure_deletes_nothing
        (fuel : nat) (projectId networkName : string) (s : state W)
        (err : error) (w1 : W) :
  let request :=
    mkFirewallsListCall
      projectId
      ("network eq " +:+ "https://www.googleapis.com/compute/v1/projects/"
                     +:+ projectId +:+ "/global/networks/" +:+ networkName)
      "" in
  Firewalls_List config request (st_w s) = (Err err, w1) ->
  forceDeleteComputeNetwork config (S fuel) projectId networkName s
  = (Fail (Errorf "Error listing firewall rules in proj: %s" [ArgError err]),
     mkState (st_d s) w1 (st_log s ++ [EvFirewallsList request])).
Proof.
  intros request Hlist.
  unfold forceDeleteComputeNetwork. cbn [paginateFirewalls].
  rewrite bind_bind. erewrite bind_call by exact Hlist. reflexivity.
Qed.


End NetworkMore.

Lemma listing_failure_deletes_nothing_witness :
  let err := GoogleApiError 403 "compute API disabled" in
  let config := Mock.config (Cases.failing err) in
  let s := mkState Examples.stored tt [] in
  let request :=
    mkFirewallsListCall
      "p1"
      ("network eq " +:+ "https://www.googleapis.com/compute/v1/projects/"
                     +:+ "p1" +:+ "/global/networks/" +:+ "default")
      "" in
  forceDeleteComputeNetwork config 1 "p1" "default" s
  = (Fail (Errorf "Error listing firewall rules in proj: %s" [ArgError err]),
     mkState (st_d s) tt (st_log s ++ [EvFirewallsList request])).
Proof.
  intros err config s request.
  exact (listing_failure_deletes_nothing config 0 "p1" "default" s err tt eq_refl).
Defined.


(** ** Folder identifiers and import *)

Section FolderAndImport.

Context {W : Type}.

(** X23.  Parsing a folder identifier undoes the "folders/" prefix: the
    prefixed form of an id parses to the id, and an id without the prefix
    parses to itself, so both forms name the same parent. *)
Theorem parseFolderId_strips_prefix (id : string) (s : state W) :
  parseFolderId (VString ("folders/" +:+ id)) s = (Ok id, s)
  /\ (Strings.HasPrefix id "folders/" = false ->
      parseFolderId (VString id) s = (Ok id, s)).
Proof.
  split.
  - now rewrite parseFolderId_run, StringFacts.TrimPrefix_append.
  - intros Hplain. rewrite parseFolderId_run.
    unfold Strings.TrimPrefix. now rewrite Hplain.
Qed.

(** X24.  Import forces "auto_create_network" to true whatever the record
    held, and does nothing else: no other field, not the identifier, not
    the change tracking, and no remote call. *)
Theorem import_forces_auto_create_network (s : state W) :
  let result := @resourceProjectImportState W s in
  let d := st_d s in
  let d' := st_d (snd result) in
  fst result = Ok tt
  /\ RD.Get d' "auto_create_network" = VBool true
  /\ (forall k, k <> "auto_create_network" -> RD.Get d' k = RD.Get d k)
  /\ (forall k, RD.HasChange d' k = RD.HasChange d k)
  /\ rd_id d' = rd_id d
  /\ st_log (snd result) = st_log s
  /\ st_w (snd result) = st_w s.
Proof.
  intros result d d'. subst result d d'.
  unfold resourceProjectImportState, Set_, modifyD. cbn [fst snd st_d st_log st_w].
  split; [reflexivity|]. split; [now apply (Get_Set_same _ TypeBool)|].
  split; [intros k Hk; now apply RDFacts.Get_Set_ne|].
  split; [intros k; apply RDFacts.HasChange_Set|].
  split; [apply RDFacts.id_Set|]. split; reflexivity.
Qed.

End FolderAndImport.

(** ** Create: a billing failure after the project exists *)

Section CreateBilling.

Context {W : Type} (config : Config W).

(** The whole run of the billing step when its submission fails. *)
Lemma billing_fail_run
      (d : ResourceData) (w w1 : W) (log : list Event) (err : error) :
  let name := RD.GetString d "billing_account" in
  Projects_UpdateBillingInfo config (prefixedProject (rd_id d))
                             (billingPayload name) w = (Err err, w1) ->
  updateProjectBillingAccount config (mkState d w log)
  = (Fail (Errorf "Error setting billing account %q for project %q: %v"
                  [ArgString name; ArgString (prefixedProject (rd_id d));
                   ArgError err]),
     mkState (RD.Set_ "billing_account" (VString "") d) w1
             (log ++ [EvUpdateBillingInfo (prefixedProject (rd_id d))
                                          (billingPayload name)])).
Proof.
  intros name Hsubmit.
  unfold updateProjectBillingAccount. run.
  rewrite (RDFacts.Get_string d "billing_account") by reflexivity.
  fold name. cbn [asString]. run. rewrite billingPayload_source.
  answer Hsubmit.
  destruct err; run_leaf; reflexivity.
Qed.

Lemma bind_fail_run {A B} (m : M W A) (k : A -> M W B) (s s' : state W)
      (e : error) :
  m s = (Fail e, s') -> bind m k s = (Fail e, s').
Proof. intros H. unfold bind. now rewrite H. Qed.

(** X25.  A billing failure during Create is returned without rolling the
    creation back: the project has been created and waited for, the
    identifier stays set to the project id, the billing field is reset to
    empty, and nothing is read or deleted afterwards. *)
Theorem create_billing_failure_keeps_identifier
        (fuel : nat) (d : ResourceData) (w w1 w2 w3 : W) (log : list Event)
        (op : Operation) (err : error) :
  let pid := RD.GetString d "project_id" in
  let name := RD.GetString d "billing_account" in
  let project := createRequest d in
  Projects_Create config project w = (Resp op, w1) ->
  cfg_resourceManagerOperationWait config op "project to create" w1
  = (Resp tt, w2) ->
  isSet d "billing_account" = true ->
  Projects_UpdateBillingInfo config (prefixedProject pid)
                             (billingPayload name) w2 = (Err err, w3) ->
  let result := resourceGoogleProjectCreate config fuel (mkState d w log) in
  fst result
  = Fail (Errorf "Error setting billing account %q for project %q: %v"
                 [ArgString name; ArgString (prefixedProject pid); ArgError err])
  /\ rd_id (st_d (snd result)) = pid
  /\ RD.Get (st_d (snd result)) "billing_account" = VString ""
  /\ st_log (snd result)
     = log ++ [EvProjectsCreate project; EvSetId pid;
               EvResourceManagerOperationWait op "project to create";
               EvUpdateBillingInfo (prefixedProject pid) (billingPayload name)].
Proof.
  intros pid name project Hcreate Hwait Hbilling Hsubmit result. subst result.
  unfold resourceGoogleProjectCreate. run.
  rewrite (RDFacts.Get_string d "project_id") by reflexivity.
  cbn [asString]. run.
  rewrite (RDFacts.Get_string d "name") by reflexivity.
  cbn [asString]. run.
  rewrite (bind_ok _ _ _ _ _ (getParentResourceId_run _ _)). run.
  change (if snd (RD.GetOk d "labels") then _ else _) with (createRequest d).
  fold project. fold pid.
  answer Hcreate. answer Hwait.
  change (snd (RD.GetOk (RD.SetId pid d) "billing_account"))
    with (isSet d "billing_account").
  rewrite Hbilling. run.
  rewrite (bind_fail_run _ _ _ _ _
             (billing_fail_run (RD.SetId pid d) w2 w3 _ err Hsubmit)).
  cbn [fst snd st_d st_log]. rewrite <- !app_assoc.
  split; [reflexivity|]. split; [now rewrite RDFacts.id_Set|].
  split; [now apply RDFacts.Get_Set_eq|reflexivity].
Qed.

End CreateBilling.

Lemma create_billing_failure_keeps_identifier_witness :
  let d := Cases.billedPlan in
  let err := GoogleApiError 403 "permission denied" in
  let config := Mock.config (Cases.billingDown err) in
  let result := resourceGoogleProjectCreate config 1 (mkState d tt []) in
  rd_id (st_d (snd result)) = "p1"
  /\ RD.Get (st_d (snd result)) "billing_account" = VString ""
  /\ fst result
     = Fail (Errorf "Error setting billing account %q for project %q: %v"
                    [ArgString "NEW"; ArgString "projects/p1"; ArgError err]).
Proof.
  intros d err config result.
  pose proof (create_billing_failure_keeps_identifier config 1 d tt tt tt tt []
                (mkOperation "operations/cp.1") err) as H.
  cbv zeta in H.
  destruct (H eq_refl eq_refl ltac:(vm_compute; reflexivity) eq_refl)
    as [Hfail [Hid [Hfield _]]].
  assert (Hpid : RD.GetString d "project_id" = "p1") by (vm_compute; reflexivity).
  assert (Herr :
            Fail (A := unit)
                 (Errorf "Error setting billing account %q for project %q: %v"
                         [ArgString (RD.GetString d "billing_account");
                          ArgString (prefixedProject (RD.GetString d "project_id"));
                          ArgError err])
            = Fail (Errorf "Error setting billing account %q for project %q: %v"
                           [ArgString "NEW"; ArgString "projects/p1"; ArgError err]))
    by (vm_compute; reflexivity).
  exact (conj (eq_trans Hid Hpid) (conj Hfield (eq_trans Hfail Herr))).
Defined.
